(** * Pull-request acceptance data collection: metric extraction,
      aggregation, record assembly and the resumable fetch loop.

    A shallow embedding of [feature_extraction.py], [github_utils.py] and
    [main.py].  Python dictionaries whose key set matters are finite maps
    from strings; Python integers are [Z]; Python floats are exact
    rationals kept in lowest terms (binary64 rounding is not modelled);
    text is restricted to the ASCII code points. *)

From Stdlib Require Import ZArith QArith Qcanon Ascii String List Lia Bool.
From stdpp Require Import base option list gmap strings.

Set Warnings "-register-all,-clear-no-such-hyp".

Open Scope string_scope.
Open Scope list_scope.
Open Scope Z_scope.

(** ** Python values stored in metric dictionaries *)

Inductive pyval :=
  | VNone
  | VInt (z : Z)
  | VFloat (q : Q)
  | VStr (s : string).

(** [d.get(key)]: the stored value, or [None] when the key is missing. *)
Definition dict_get (d : gmap string pyval) (key : string) : pyval :=
  default VNone (d !! key).

Definition is_not_None (v : pyval) : bool :=
  match v with VNone => false | _ => true end.

(** [float(x)] *)
Definition py_float (q : Q) : pyval := VFloat (Qred q).

(** The number a metric value stands for, used to order values. *)
Definition to_Q (v : pyval) : Q :=
  match v with
  | VInt z => inject_Z z
  | VFloat q => q
  | _ => 0%Q
  end.

(** ** Text primitives (str.splitlines, str.strip, str.startswith,
       str.endswith, str.lower) *)

Module Text.

Definition code (c : ascii) : N := N_of_ascii c.

(** Line boundaries recognised by [str.splitlines] below U+0080. *)
Definition is_linebreak (c : ascii) : bool :=
  let n := code c in
  ((10 <=? n) && (n <=? 13) || (28 <=? n) && (n <=? 30))%N.

(** [str.isspace] below U+0080. *)
Definition is_space (c : ascii) : bool :=
  let n := code c in
  ((9 <=? n) && (n <=? 13) || (28 <=? n) && (n <=? 32))%N.

Definition is_CR (c : ascii) : bool := (code c =? 13)%N.
Definition is_LF (c : ascii) : bool := (code c =? 10)%N.

(** [splitlines_from cur s]: [cur] is the current line, reversed.  A
    final line is produced only when characters follow the last
    boundary; a carriage return followed by a line feed is one boundary. *)
Fixpoint splitlines_from (cur : list ascii) (s : list ascii)
  : list (list ascii) :=
  match s with
  | [] => match cur with [] => [] | _ => [rev cur] end
  | c :: rest =>
      if is_linebreak c then
        rev cur ::
          match rest with
          | d :: rest' =>
              if is_CR c && is_LF d
              then splitlines_from [] rest'
              else splitlines_from [] rest
          | [] => []
          end
      else splitlines_from (c :: cur) rest
  end.

Definition splitlines (s : string) : list (list ascii) :=
  splitlines_from [] (list_ascii_of_string s).

Fixpoint lstrip (l : list ascii) : list ascii :=
  match l with
  | c :: rest => if is_space c then lstrip rest else l
  | [] => []
  end.

Definition strip (l : list ascii) : list ascii :=
  rev (lstrip (rev (lstrip l))).

Fixpoint startswith (l p : list ascii) : bool :=
  match p, l with
  | [], _ => true
  | a :: p', b :: l' => Ascii.eqb a b && startswith l' p'
  | _ :: _, [] => false
  end.

Definition endswith (l suffix : list ascii) : bool :=
  startswith (rev l) (rev suffix).

Definition lower_char (c : ascii) : ascii :=
  let n := code c in
  if ((65 <=? n) && (n <=? 90))%N then ascii_of_N (n + 32) else c.

Definition lower (l : list ascii) : list ascii := map lower_char l.

End Text.

(** ** feature_extraction.py *)

Module FeatureExtraction.

(** *** The syntax tree seen by [ast.NodeVisitor]

    A node is its class together with the child nodes that
    [NodeVisitor.generic_visit] iterates over, in field order.  A
    function definition carries what [visit_FunctionDef] reads from
    [node.args]: the number of entries of [args.args] and whether
    [vararg] and [kwarg] are set.  Every class the visitor does not
    mention is [Other]. *)

Inductive node_class :=
  | If | For | While | With | Try
  | FunctionDef (n_args : Z) (vararg kwarg : bool)
  | Call
  | Other.

Inductive node := Node (cls : node_class) (children : list node).

Record ASTMetricsVisitor := mkVisitor {
  max_depth : Z;
  current_depth : Z;
  func_defs : Z;
  max_func_args : Z;
  total_calls : Z;
  total_if : Z;
  total_loops : Z
}.

(** [__init__] *)
Definition init : ASTMetricsVisitor := mkVisitor 0 0 0 0 0 0 0.

(** [isinstance(node, (ast.If, ast.For, ast.While, ast.With, ast.Try))] *)
Definition is_nesting (c : node_class) : bool :=
  match c with
  | If | For | While | With | Try => true
  | _ => false
  end.

Definition set_current_depth (d : Z) (v : ASTMetricsVisitor) :=
  mkVisitor (max_depth v) d (func_defs v) (max_func_args v)
            (total_calls v) (total_if v) (total_loops v).

(** [self.current_depth += 1; self.max_depth = max(...)] *)
Definition enter (v : ASTMetricsVisitor) :=
  let d := current_depth v + 1 in
  mkVisitor (Z.max (max_depth v) d) d (func_defs v) (max_func_args v)
            (total_calls v) (total_if v) (total_loops v).

(** The part of [visit_<Class>] that runs before [self.generic_visit]. *)
Definition count (c : node_class) (v : ASTMetricsVisitor) :=
  match c with
  | FunctionDef n_args vararg kwarg =>
      let num_args :=
        n_args + (if vararg then 1 else 0) + (if kwarg then 1 else 0) in
      mkVisitor (max_depth v) (current_depth v) (func_defs v + 1)
                (Z.max (max_func_args v) num_args)
                (total_calls v) (total_if v) (total_loops v)
  | Call =>
      mkVisitor (max_depth v) (current_depth v) (func_defs v)
                (max_func_args v) (total_calls v + 1) (total_if v)
                (total_loops v)
  | If =>
      mkVisitor (max_depth v) (current_depth v) (func_defs v)
                (max_func_args v) (total_calls v) (total_if v + 1)
                (total_loops v)
  | For | While =>
      mkVisitor (max_depth v) (current_depth v) (func_defs v)
                (max_func_args v) (total_calls v) (total_if v)
                (total_loops v + 1)
  | With | Try | Other => v
  end.

(** [visit]: dispatch on the class, then [generic_visit]: remember the
    depth, enter a nesting construct, visit the children in order,
    restore the depth. *)
Fixpoint visit (n : node) (v : ASTMetricsVisitor) : ASTMetricsVisitor :=
  match n with
  | Node c children =>
      let v1 := count c v in
      let old_depth := current_depth v1 in
      let v2 := if is_nesting c then enter v1 else v1 in
      let v3 :=
        (fix visit_children (l : list node) (w : ASTMetricsVisitor) :=
           match l with
           | [] => w
           | child :: l' => visit_children l' (visit child w)
           end) children v2 in
      set_current_depth old_depth v3
  end.

Definition visit_children : list node -> ASTMetricsVisitor -> ASTMetricsVisitor :=
  fix visit_children (l : list node) (w : ASTMetricsVisitor) :=
    match l with
    | [] => w
    | child :: l' => visit_children l' (visit child w)
    end.

(** *** The two extractors *)

(** What [radon.raw.analyze] returns, as far as the extractor reads it. *)
Record raw_module := mkRaw {
  raw_loc : Z; raw_lloc : Z; raw_sloc : Z;
  raw_comments : Z; raw_multi : Z; raw_blank : Z
}.

Definition sumQ (l : list Q) : Q := fold_right Qplus 0%Q l.

(** [np.mean] of a non-empty sample, as an exact rational. *)
Definition np_mean (l : list Q) : Q :=
  (sumQ l / inject_Z (Z.of_nat (length l)))%Q.

Definition Qlt_bool (a b : Q) : bool := negb (Qle_bool b a).

(** [min(values)]: the first smallest element. *)
Definition py_min (first : pyval) (rest : list pyval) : pyval :=
  fold_left (fun r x => if Qlt_bool (to_Q x) (to_Q r) then x else r)
            rest first.

(** [max(values)]: the first largest element. *)
Definition py_max (first : pyval) (rest : list pyval) : pyval :=
  fold_left (fun r x => if Qlt_bool (to_Q r) (to_Q x) then x else r)
            rest first.

Definition structural_keys : list string :=
  ["max_nesting"; "func_count"; "max_args"; "call_count"; "if_count";
   "loop_count"].

(** [{k: None for k in [...]}] *)
Definition all_None (ks : list string) : gmap string pyval :=
  list_to_map (map (fun k => (k, VNone)) ks).

Section Extractors.

(** The three library calls.  [None] stands for a raised [Exception];
    the tree is the one [ast.parse] builds. *)
Variable ast_parse : string -> option node.
Variable raw_analyze : string -> option raw_module.
(** [cc_visit], reduced to the [complexity] of the blocks it returns. *)
Variable cc_visit : string -> option (list Z).

Definition ast_metrics (file_content : string) : gmap string pyval :=
  match ast_parse file_content with
  | Some tree =>
      let visitor := visit tree init in
      <["loop_count" := VInt (total_loops visitor)]>
      (<["if_count" := VInt (total_if visitor)]>
      (<["call_count" := VInt (total_calls visitor)]>
      (<["max_args" := VInt (max_func_args visitor)]>
      (<["func_count" := VInt (func_defs visitor)]>
      (<["max_nesting" := VInt (max_depth visitor)]> ∅)))))
  | None => all_None structural_keys
  end.

Definition raw_metrics (file_content : string)
  : pyval * pyval * pyval * pyval * pyval * pyval :=
  match raw_analyze file_content with
  | Some raw =>
      (VInt (raw_loc raw), VInt (raw_lloc raw), VInt (raw_sloc raw),
       VInt (raw_comments raw), VInt (raw_multi raw), VInt (raw_blank raw))
  | None => (VNone, VNone, VNone, VNone, VNone, VNone)
  end.

Definition cc_metrics (file_content : string) : pyval * pyval :=
  match cc_visit file_content with
  | Some cc_list =>
      match cc_list with
      | [] => (VNone, VNone)
      | c :: cs =>
          let cc_scores := map VInt cc_list in
          (py_float (np_mean (map to_Q cc_scores)),
           py_float (to_Q (py_max (VInt c) (map VInt cs))))
      end
  | None => (VNone, VNone)
  end.

Definition compute_python_metrics (file_content : string)
  : gmap string pyval :=
  let '(loc, lloc, sloc, comments, multi, blank) :=
    raw_metrics file_content in
  let '(avg_cc, max_cc) := cc_metrics file_content in
  <["blank" := blank]>
  (<["multi_comments" := multi]>
  (<["comments" := comments]>
  (<["sloc" := sloc]>
  (<["lloc" := lloc]>
  (<["loc" := loc]>
  (<["max_cc" := max_cc]>
  (<["avg_cc" := avg_cc]> (ast_metrics file_content)))))))).

End Extractors.

Definition is_blank_line (l : list ascii) : bool :=
  match Text.strip l with [] => true | _ => false end.

Definition comment_leaders : list (list ascii) :=
  map list_ascii_of_string ["#"; "//"; "/*"; "*"].

Definition is_comment_line (l : list ascii) : bool :=
  existsb (Text.startswith (Text.strip l)) comment_leaders.

Definition count_if {A} (f : A -> bool) (l : list A) : Z :=
  Z.of_nat (length (filter (fun x => f x = true) l)).

Definition compute_basic_metrics (content : string) : gmap string pyval :=
  let lines := Text.splitlines content in
  let loc := Z.of_nat (length lines) in
  let blank := count_if is_blank_line lines in
  let comments := count_if is_comment_line lines in
  let sloc := loc - blank - comments in
  <["max_cc" := VNone]>
  (<["avg_cc" := VNone]>
  (<["loop_count" := VNone]>
  (<["if_count" := VNone]>
  (<["call_count" := VNone]>
  (<["max_args" := VNone]>
  (<["func_count" := VNone]>
  (<["max_nesting" := VNone]>
  (<["multi_comments" := VNone]>
  (<["comments" := VInt comments]>
  (<["blank" := VInt blank]>
  (<["sloc" := VInt sloc]>
  (<["loc" := VInt loc]> ∅)))))))))))).

(** *** The aggregator *)

Definition keys : list string :=
  ["max_nesting"; "func_count"; "max_args"; "call_count"; "if_count";
   "loop_count"; "avg_cc"; "max_cc"; "loc"; "lloc"; "sloc"; "comments";
   "multi_comments"; "blank"].

(** [[f.get(key) for f in files_metrics if f.get(key) is not None]] *)
Definition values_of (key : string)
    (files_metrics : list (gmap string pyval)) : list pyval :=
  filter (fun v => is_not_None v = true)
         (map (fun f => dict_get f key) files_metrics).

(** One turn of [for key in keys]. *)
Definition aggregate_key (files_metrics : list (gmap string pyval))
    (agg : gmap string pyval) (key : string) : gmap string pyval :=
  match values_of key files_metrics with
  | v :: vs =>
      <[("max_" ++ key)%string := py_max v vs]>
      (<[("avg_" ++ key)%string := py_float (np_mean (map to_Q (v :: vs)))]>
      (<[("min_" ++ key)%string := py_min v vs]> agg))
  | [] =>
      <[("max_" ++ key)%string := VNone]>
      (<[("avg_" ++ key)%string := VNone]>
      (<[("min_" ++ key)%string := VNone]> agg))
  end.

(** The argument is the value stored under ["files_metrics"], [None]
    when the key is missing or holds [None]. *)
Definition aggregate_file_metrics
    (pr_files_metrics : option (list (gmap string pyval)))
  : gmap string pyval :=
  let files_metrics := default [] pr_files_metrics in
  fold_left (aggregate_key files_metrics) keys ∅.

(** *** [build_initial_pr_dataframe]: the per-file step *)

(** [f.get("filename", "")] and [f.get("content", "")] as text; a
    missing or [None] content is falsy like the empty text. *)
Definition get_text (f : gmap string pyval) (key : string) : string :=
  match f !! key with
  | Some (VStr s) => s
  | _ => ""
  end.

Definition dot_py : list ascii := list_ascii_of_string ".py".

Section PerFile.

Variable ast_parse : string -> option node.
Variable raw_analyze : string -> option raw_module.
Variable cc_visit : string -> option (list Z).

(** The metric record computed for a file that has content. *)
Definition file_metrics (fname content : string) : gmap string pyval :=
  if Text.endswith (list_ascii_of_string fname) dot_py
  then compute_python_metrics ast_parse raw_analyze cc_visit content
  else compute_basic_metrics content.

(** The loop body over [files_metrics]; [f.update(d)] lets the new
    entries win. *)
Definition update_file (f : gmap string pyval) : gmap string pyval :=
  let fname := get_text f "filename" in
  let content := get_text f "content" in
  match content with
  | "" => f
  | _ => file_metrics fname content ∪ f
  end.

End PerFile.

(** *** Keyword labels

    The patterns are the source's raw strings.  A pattern is read as a
    sequence of items: backslash-b is the word boundary, every other
    character stands for itself. *)

Inductive re_item := Boundary | Lit (c : ascii).

Fixpoint re_compile (p : list ascii) : list re_item :=
  match p with
  | "\"%char :: "b"%char :: rest => Boundary :: re_compile rest
  | c :: rest => Lit c :: re_compile rest
  | [] => []
  end.

(** [\w] below U+0080: letters, digits and the underscore. *)
Definition is_word (c : ascii) : bool :=
  let n := Text.code c in
  ((48 <=? n) && (n <=? 57) || (65 <=? n) && (n <=? 90)
   || (97 <=? n) && (n <=? 122) || (n =? 95))%N.

Definition is_word_opt (c : option ascii) : bool :=
  match c with Some c => is_word c | None => false end.

(** Match the items at the current position; [prev] is the character
    just before it, if any. *)
Fixpoint match_here (p : list re_item) (prev : option ascii)
    (s : list ascii) : bool :=
  match p with
  | [] => true
  | Boundary :: p' =>
      xorb (is_word_opt prev) (is_word_opt (head s)) && match_here p' prev s
  | Lit c :: p' =>
      match s with
      | d :: s' => Ascii.eqb c d && match_here p' (Some d) s'
      | [] => false
      end
  end.

(** Try every start position, leftmost first. *)
Fixpoint search_from (p : list re_item) (prev : option ascii)
    (s : list ascii) : bool :=
  match_here p prev s
  || match s with
     | c :: s' => search_from p (Some c) s'
     | [] => false
     end.

(** [re.search(p, text)] as a truth value. *)
Definition re_search (p : string) (text : list ascii) : bool :=
  search_from (re_compile (list_ascii_of_string p)) None text.

Definition contains_keywords_regex (text : option string)
    (patterns : list string) : Z :=
  match text with
  | None | Some "" => 0
  | Some t =>
      let text_lower := Text.lower (list_ascii_of_string t) in
      if existsb (fun p => re_search p text_lower) patterns then 1 else 0
  end.

Definition bugfix_patterns : list string :=
  ["\bfix\b"; "\bbug\b"; "\berror\b"; "\bissue\b";
   "\bfixes\b"; "\bbugs\b"; "\berrors\b"; "\bissues\b";
   "\bfixing\b"; "\bfixed\b"; "\bproblem\b"; "\bpatch\b";
   "\bcorrect\b"; "\bresolve\b"; "\bresolved\b"; "\bhotfix\b"].

Definition refactor_patterns : list string :=
  ["\brefactor\b"; "\bcleanup\b"; "\brefactored\b"; "\bcleaning\b";
   "\brefactoring\b"; "\brewrite\b"; "\brestructured\b"; "\bmodularize\b"].

Definition feature_patterns : list string :=
  ["\badd\b"; "\bfeature\b"; "\bimplement\b"; "\bintroduce\b";
   "\bcreate\b"; "\bnew\b"; "\bupgrade\b"; "\benable\b"; "\bimprove\b"].

(** The three labels of one pull request, from [pr.get("title", "")]. *)
Definition is_bugfix (title : option string) : Z :=
  contains_keywords_regex title bugfix_patterns.
Definition is_refactor (title : option string) : Z :=
  contains_keywords_regex title refactor_patterns.
Definition is_feature (title : option string) : Z :=
  contains_keywords_regex title feature_patterns.

End FeatureExtraction.

(** ** github_utils.py *)

Module GithubUtils.

(** The pull request object of the hosting service's client, as far as
    [fetch_single_pr] reads it.  Timestamps are kept in ISO form. *)
Record api_pull := mkApiPull {
  api_number : Z;
  api_title : option string;
  api_body : option string;
  api_created_at : option string;
  api_closed_at : option string;
  api_merged_at : option string;
  api_additions : option Z;
  api_deletions : option Z;
  api_changed_files : option Z;
  api_commits : option Z;
  api_user : option string
}.

(** The record [fetch_single_pr] returns.  The comment, reviewer and
    commit summaries are carried along untouched by everything below and
    are left out. *)
Record pr_dict := mkPrDict {
  number : Z;
  title : option string;
  body : option string;
  created_at : option string;
  closed_at : option string;
  merged_at : option string;
  additions : Z;
  deletions : Z;
  changed_files : Z;
  commits : Z;
  author : option string;
  files_metrics : option (list (gmap string pyval))
}.

(** [x or -1] on a count *)
Definition or_minus_one (x : option Z) : Z :=
  match x with
  | None | Some 0 => -1
  | Some n => n
  end.

(** [x or None] on a text *)
Definition or_None (x : option string) : option string :=
  match x with
  | None | Some "" => None
  | Some t => Some t
  end.

(** One entry of ["files_metrics"]: [{"filename": ..., "content": ...}] *)
Definition file_entry (f : string * option string) : gmap string pyval :=
  <["content" := match f.2 with Some c => VStr c | None => VNone end]>
  (<["filename" := VStr f.1]> ∅).

(** [files] is the list of changed files with their decoded content
    ([None] when the content could not be fetched), or [None] when
    listing the files raised. *)
Definition fetch_single_pr (pr : api_pull)
    (files : option (list (string * option string))) : pr_dict :=
  {| number := api_number pr;
     title := or_None (api_title pr);
     body := or_None (api_body pr);
     created_at := api_created_at pr;
     closed_at := api_closed_at pr;
     merged_at := api_merged_at pr;
     additions := or_minus_one (api_additions pr);
     deletions := or_minus_one (api_deletions pr);
     changed_files := or_minus_one (api_changed_files pr);
     commits := or_minus_one (api_commits pr);
     author := api_user pr;
     files_metrics := map file_entry <$> files |}.

End GithubUtils.

(** ** main.py *)

Module Main.

Import GithubUtils.

Definition TARGET_PRS_WITH_PYTHON : Z := 2500.
Definition FETCH_BATCH_SIZE : Z := 200.
Definition SAVE_EVERY : Z := 25.

(** A pull request as the listing returns it. *)
Record pr_obj := mkPrObj { pr_number : Z; pr_merged_at : option string }.

Definition len {A} (l : list A) : Z := Z.of_nat (length l).

(** [min(...)] of integers; [None] stands for the [ValueError] on an
    empty argument. *)
Definition py_min_Z (l : list Z) : option Z :=
  match l with
  | [] => None
  | x :: xs => Some (fold_left Z.min xs x)
  end.

(** *** [fetch_pr_list_descending] *)

(** The two [continue] tests of the inner loop. *)
Definition skipped (max_pr_number : option Z) (pr : pr_obj) : bool :=
  match max_pr_number with
  | Some m => (m <=? pr_number pr)%Z || bool_decide (is_Some (pr_merged_at pr))
  | None => bool_decide (is_Some (pr_merged_at pr))
  end.

(** [for pr in page_items], leaving at once when [max_prs] is reached. *)
Fixpoint scan_page (max_pr_number : option Z) (max_prs : Z)
    (page_items all_prs : list pr_obj) : list pr_obj :=
  match page_items with
  | [] => all_prs
  | pr :: rest =>
      if skipped max_pr_number pr
      then scan_page max_pr_number max_prs rest all_prs
      else
        let all_prs' := all_prs ++ [pr] in
        if (max_prs <=? len all_prs')%Z then all_prs'
        else scan_page max_pr_number max_prs rest all_prs'
  end.

(** [while len(all_prs) < max_prs] over the pages the service has; the
    page after the last one is empty, and an empty page ends the loop. *)
Fixpoint scan_pages (max_pr_number : option Z) (max_prs : Z)
    (pages : list (list pr_obj)) (all_prs : list pr_obj) : list pr_obj :=
  if (len all_prs <? max_prs)%Z then
    match pages with
    | [] => all_prs
    | [] :: _ => all_prs
    | page_items :: later =>
        scan_pages max_pr_number max_prs later
                   (scan_page max_pr_number max_prs page_items all_prs)
    end
  else all_prs.

Definition fetch_pr_list_descending (pages : list (list pr_obj))
    (max_pr_number : option Z) (max_prs : Z) : list pr_obj :=
  scan_pages max_pr_number max_prs pages [].

(** *** [_has_python_files] *)

Definition _has_python_files (pr_dict : pr_dict) : bool :=
  match files_metrics pr_dict with
  | None | Some [] => false
  | Some fs =>
      existsb
        (fun f => Text.endswith
                    (list_ascii_of_string
                       (FeatureExtraction.get_text f "filename"))
                    FeatureExtraction.dot_py)
        fs
  end.

(** *** The world outside the process *)

(** The checkpoint file. *)
Record metadata := mkMetadata {
  md_processed_pr_numbers : list Z;
  md_processed_with_python : Z;
  md_csv_file_counter : Z;
  md_lowest_pr_number : option Z
}.

(** What a call of [_save_batch_to_separate_csv] on a non-empty batch
    meets: no file comes to exist (the function returns 0), or the file
    is written and reading it back gives [rows_read] rows (0 when
    reading it back raises). *)
Inductive write_outcome := NoFile | File (rows_read : Z).

(** What a call of [_save_metadata] meets: the file is replaced, left
    as it was, or left unreadable. *)
Inductive metadata_outcome := Replaced | Untouched | Unreadable.

Record world := mkWorld {
  (** the pages served to the [i]-th listing pass *)
  get_pages : nat -> list (list pr_obj);
  (** the worker pool of the [i]-th pass: the submitted requests in
      completion order, each with the record its worker returned or
      [None] when the worker raised *)
  as_completed : nat -> list pr_obj -> list (pr_obj * option pr_dict);
  (** the [k]-th attempt to write a batch, and the checkpoint write
      that follows it *)
  write_csv : nat -> write_outcome;
  write_metadata : nat -> metadata_outcome
}.

(** *** The local variables of [process_repository], and its effects *)

Record state := mkState {
  existing_pr_numbers : gset Z;
  processed_with_python : Z;
  csv_file_counter : Z;
  lowest_pr_number : option Z;
  df_rows : list pr_dict;
  skipped_no_python : Z;
  (** the checkpoint file; [None] when it is missing or unreadable *)
  metadata_file : option metadata;
  (** the batch files written so far, newest first, each with its counter *)
  csv_files : list (Z * list pr_dict);
  (** the numbers handed to the worker pool so far, newest first *)
  submitted : list Z;
  (** how many batch writes were attempted *)
  save_calls : nat
}.

Definition _load_metadata (file : option metadata) : metadata :=
  default (mkMetadata [] 0 0 None) file.

Definition initial_state (file : option metadata) : state :=
  let md := _load_metadata file in
  {| existing_pr_numbers := list_to_set (md_processed_pr_numbers md);
     processed_with_python := md_processed_with_python md;
     csv_file_counter := md_csv_file_counter md;
     lowest_pr_number := md_lowest_pr_number md;
     df_rows := [];
     skipped_no_python := 0;
     metadata_file := file;
     csv_files := [];
     submitted := [];
     save_calls := 0 |}.

Definition _save_metadata (o : metadata_outcome) (file : option metadata)
    (new : metadata) : option metadata :=
  match o with
  | Replaced => Some new
  | Untouched => file
  | Unreadable => None
  end.

(** [_save_batch_to_separate_csv]: the value returned and the batch
    files afterwards.  A batch file is recorded as the rows handed to the
    writer.  Building the table adds keys to these records in place and
    drops ["body"]; it leaves ["number"] and the file names alone, and is
    not followed here. *)
Definition _save_batch_to_separate_csv (o : write_outcome)
    (csv_file_counter : Z) (df_rows : list pr_dict)
    (csv_files : list (Z * list pr_dict)) : Z * list (Z * list pr_dict) :=
  match df_rows with
  | [] => (0, csv_files)
  | _ =>
      match o with
      | NoFile => (0, csv_files)
      | File rows_read => (rows_read, (csv_file_counter, df_rows) :: csv_files)
      end
  end.

(** The body shared by the two places that write a batch: bump the
    counter, write, and only when rows were saved move the cursor to the
    smallest number of the batch, write the checkpoint and empty the
    buffer. *)
Definition save_batch (w : world) (st : state) : state :=
  let counter := csv_file_counter st + 1 in
  let '(rows_saved, files) :=
    _save_batch_to_separate_csv (write_csv w (save_calls st)) counter
                                (df_rows st) (csv_files st) in
  if (0 <? rows_saved)%Z then
    let lowest :=
      match py_min_Z (map number (df_rows st)) with
      | Some m => Some m
      | None => lowest_pr_number st
      end in
    {| existing_pr_numbers := existing_pr_numbers st;
       processed_with_python := processed_with_python st;
       csv_file_counter := counter;
       lowest_pr_number := lowest;
       df_rows := [];
       skipped_no_python := skipped_no_python st;
       metadata_file :=
         _save_metadata (write_metadata w (save_calls st)) (metadata_file st)
           (mkMetadata (elements (existing_pr_numbers st))
                       (processed_with_python st) counter lowest);
       csv_files := files;
       submitted := submitted st;
       save_calls := S (save_calls st) |}
  else
    {| existing_pr_numbers := existing_pr_numbers st;
       processed_with_python := processed_with_python st;
       csv_file_counter := counter;
       lowest_pr_number := lowest_pr_number st;
       df_rows := df_rows st;
       skipped_no_python := skipped_no_python st;
       metadata_file := metadata_file st;
       csv_files := files;
       submitted := submitted st;
       save_calls := S (save_calls st) |}.

(** *** One completed worker (the body of the [as_completed] loop) *)

(** No source-language file: count it as skipped and mark it processed. *)
Definition record_skipped (st : state) (pr : pr_obj) : state :=
  {| existing_pr_numbers := {[pr_number pr]} ∪ existing_pr_numbers st;
     processed_with_python := processed_with_python st;
     csv_file_counter := csv_file_counter st;
     lowest_pr_number := lowest_pr_number st;
     df_rows := df_rows st;
     skipped_no_python := skipped_no_python st + 1;
     metadata_file := metadata_file st;
     csv_files := csv_files st;
     submitted := submitted st;
     save_calls := save_calls st |}.

(** Otherwise: append the record, mark it processed, count it. *)
Definition record_row (st : state) (pr : pr_obj) (d : pr_dict) : state :=
  {| existing_pr_numbers := {[pr_number pr]} ∪ existing_pr_numbers st;
     processed_with_python := processed_with_python st + 1;
     csv_file_counter := csv_file_counter st;
     lowest_pr_number := lowest_pr_number st;
     df_rows := df_rows st ++ [d];
     skipped_no_python := skipped_no_python st;
     metadata_file := metadata_file st;
     csv_files := csv_files st;
     submitted := submitted st;
     save_calls := save_calls st |}.

(** The new state, and whether the loop over the workers is left. *)
Definition on_completed (w : world) (st : state)
    (c : pr_obj * option pr_dict) : state * bool :=
  match c.2 with
  | None => (st, false)
  | Some d =>
      if negb (_has_python_files d) then (record_skipped st c.1, false)
      else
        let st1 := record_row st c.1 d in
        let st2 :=
          if SAVE_EVERY <=? len (df_rows st1)
          then save_batch w st1 else st1 in
        (st2, TARGET_PRS_WITH_PYTHON <=? processed_with_python st2)
  end.

Fixpoint process_completed (w : world) (st : state)
    (l : list (pr_obj * option pr_dict)) : state :=
  match l with
  | [] => st
  | c :: rest =>
      let '(st', leave) := on_completed w st c in
      if leave then st' else process_completed w st' rest
  end.

(** *** One turn of [while processed_with_python < TARGET_PRS_WITH_PYTHON] *)

Definition set_lowest (st : state) (lowest : option Z) : state :=
  {| existing_pr_numbers := existing_pr_numbers st;
     processed_with_python := processed_with_python st;
     csv_file_counter := csv_file_counter st;
     lowest_pr_number := lowest;
     df_rows := df_rows st;
     skipped_no_python := skipped_no_python st;
     metadata_file := metadata_file st;
     csv_files := csv_files st;
     submitted := submitted st;
     save_calls := save_calls st |}.

Definition submit (st : state) (prs : list pr_obj) : state :=
  {| existing_pr_numbers := existing_pr_numbers st;
     processed_with_python := processed_with_python st;
     csv_file_counter := csv_file_counter st;
     lowest_pr_number := lowest_pr_number st;
     df_rows := df_rows st;
     skipped_no_python := skipped_no_python st;
     metadata_file := metadata_file st;
     csv_files := csv_files st;
     submitted := rev (map pr_number prs) ++ submitted st;
     save_calls := save_calls st |}.

(** "Save remaining rows if we have any" *)
Definition save_remaining (w : world) (st : state) : state :=
  match df_rows st with
  | [] => st
  | _ =>
      if processed_with_python st <? TARGET_PRS_WITH_PYTHON
      then save_batch w st else st
  end.

(** "Update lowest_pr_number for next iteration" *)
Definition update_lowest (st : state) : state :=
  match df_rows st, py_min_Z (elements (existing_pr_numbers st)) with
  | [], Some current_min =>
      match lowest_pr_number st with
      | None => set_lowest st (Some current_min)
      | Some lowest =>
          if current_min <? lowest
          then set_lowest st (Some current_min) else st
      end
  | _, _ => st
  end.

(** The listing of the [i]-th turn and its part not yet processed. *)
Definition pr_objs_of (w : world) (i : nat) (st : state) : list pr_obj :=
  fetch_pr_list_descending (get_pages w i) (lowest_pr_number st)
                           FETCH_BATCH_SIZE.

Definition new_pr_objs_of (w : world) (i : nat) (st : state)
  : list pr_obj :=
  filter (fun pr => pr_number pr ∉ existing_pr_numbers st)
         (pr_objs_of w i st).

Inductive turn := Again (st : state) | Exit (st : state).

Definition loop_body (w : world) (i : nat) (st : state) : turn :=
  let pr_objs := pr_objs_of w i st in
  match pr_objs with
  | [] => Exit st
  | _ =>
      let new_pr_objs := new_pr_objs_of w i st in
      match new_pr_objs with
      | [] =>
          Again (set_lowest st
                   ((fun m => m - 1) <$> py_min_Z (map pr_number pr_objs)))
      | _ =>
          let st1 :=
            process_completed w (submit st new_pr_objs)
                              (as_completed w i new_pr_objs) in
          let st2 := save_remaining w st1 in
          let st3 := update_lowest st2 in
          if TARGET_PRS_WITH_PYTHON <=? processed_with_python st3
          then Exit st3 else Again st3
      end
  end.

(** The loop test, then the body. *)
Definition iteration (w : world) (i : nat) (st : state) : turn :=
  if processed_with_python st <? TARGET_PRS_WITH_PYTHON
  then loop_body w i st
  else Exit st.

(** At most [fuel] turns, the first one being turn [i]. *)
Fixpoint run (w : world) (fuel i : nat) (st : state) : turn :=
  match fuel with
  | O => Again st
  | S fuel' =>
      match iteration w i st with
      | Exit st' => Exit st'
      | Again st' => run w fuel' (S i) st'
      end
  end.

Definition process_repository (w : world) (file : option metadata)
    (fuel : nat) : turn :=
  let st := initial_state file in
  let remaining := TARGET_PRS_WITH_PYTHON - processed_with_python st in
  if remaining <=? 0 then Exit st else run w fuel 0 st.

End Main.

(** ** The properties the specification states, in its own words, and the
       sample inputs the theorems are tried on *)

Module Spec.

Import FeatureExtraction.

(** The deepest simultaneous nesting of conditional, loop,
    exception-handling and resource-scope constructs along any path from
    the node downwards. *)
Fixpoint nesting_depth (n : node) : Z :=
  match n with
  | Node c children =>
      (if is_nesting c then 1 else 0)
      + (fix deepest (l : list node) : Z :=
           match l with
           | [] => 0
           | child :: l' => Z.max (nesting_depth child) (deepest l')
           end) children
  end.

Definition deepest : list node -> Z :=
  fix deepest (l : list node) : Z :=
    match l with
    | [] => 0
    | child :: l' => Z.max (nesting_depth child) (deepest l')
    end.


(** The three values the aggregator stores for one key. *)
Definition min_of (vs : list pyval) : pyval :=
  match vs with v :: vs' => py_min v vs' | [] => VNone end.
Definition avg_of (vs : list pyval) : pyval :=
  match vs with _ :: _ => py_float (np_mean (map to_Q vs)) | [] => VNone end.
Definition max_of (vs : list pyval) : pyval :=
  match vs with v :: vs' => py_max v vs' | [] => VNone end.

(** What the three entries of a key hold. *)
Definition holds (files_metrics : list (gmap string pyval))
    (m : gmap string pyval) (key : string) : Prop :=
  m !! ("min_" ++ key)%string = Some (min_of (values_of key files_metrics))
  /\ m !! ("avg_" ++ key)%string
     = Some (avg_of (values_of key files_metrics))
  /\ m !! ("max_" ++ key)%string
     = Some (max_of (values_of key files_metrics)).

(** Three files report 2, 4 and 6 lines; one has no line count and one
    holds an explicit [None]. *)
Definition files_2_4_6 : list (gmap string pyval) :=
  [ {["loc" := VInt 2]}; ∅; {["loc" := VInt 4]}; {["loc" := VNone]};
    {["loc" := VInt 6]} ].






(** The four counts of a pull request: where the service reports each
    and where the record stores it. *)
Definition count_fields
  : list ((GithubUtils.api_pull -> option Z) * (GithubUtils.pr_dict -> Z)) :=
  [ (GithubUtils.api_additions, GithubUtils.additions);
    (GithubUtils.api_deletions, GithubUtils.deletions);
    (GithubUtils.api_changed_files, GithubUtils.changed_files);
    (GithubUtils.api_commits, GithubUtils.commits) ].

(** The same pull request with all four counts reported as [x]. *)
Definition with_counts (pr : GithubUtils.api_pull) (x : option Z)
  : GithubUtils.api_pull :=
  GithubUtils.mkApiPull
    (GithubUtils.api_number pr) (GithubUtils.api_title pr)
    (GithubUtils.api_body pr) (GithubUtils.api_created_at pr)
    (GithubUtils.api_closed_at pr) (GithubUtils.api_merged_at pr)
    x x x x (GithubUtils.api_user pr).

(** What a batch write returns to [process_repository]. *)
Definition rows_saved_of (o : Main.write_outcome) : Z :=
  match o with Main.NoFile => 0 | Main.File rows_read => rows_read end.


Definition state_of (t : Main.turn) : Main.state :=
  match t with Main.Again st | Main.Exit st => st end.

Definition is_exit (t : Main.turn) : bool :=
  match t with Main.Exit _ => true | Main.Again _ => false end.


(** The exit rule as the specification words it, for a turn [S i] that
    follows a turn [i]: the loop is left after turn [S i] exactly when the
    counter has reached the target, or when both turns listed nothing new. *)
Definition stated_exit_rule (w : Main.world) (i : nat) (st : Main.state)
  : Prop :=
  forall st1,
    Main.iteration w i st = Main.Again st1 ->
    (is_exit (Main.iteration w (S i) st1) = true
     <-> Main.TARGET_PRS_WITH_PYTHON
           <= Main.processed_with_python
                (state_of (Main.iteration w (S i) st1))
         \/ (Main.new_pr_objs_of w i st = []
             /\ Main.new_pr_objs_of w (S i) st1 = [])).

(** A record as [fetch_single_pr] returns it for a pull request without
    files, and one with a single Python file. *)
Definition plain_pr (n : Z) (files : list (string * option string))
  : GithubUtils.pr_dict :=
  GithubUtils.fetch_single_pr
    (GithubUtils.mkApiPull n (Some "title") None None None None
                           (Some 1) (Some 1) (Some 1) (Some 1) None)
    (Some files).

(** A pool in which every worker returns, in the order of submission. *)
Definition orderly_pool (files : list (string * option string))
    (prs : list Main.pr_obj)
  : list (Main.pr_obj * option GithubUtils.pr_dict) :=
  map (fun pr => (pr, Some (plain_pr (Main.pr_number pr) files))) prs.

(** The service holds the unmerged pull request 5 alone; it has no
    Python file.  Every write succeeds. *)
Definition world_one_pr : Main.world :=
  Main.mkWorld
    (fun i => match i with
              | O => [[Main.mkPrObj 5 None]]
              | _ => []
              end)
    (fun _ => orderly_pool [("README.md", Some "text")])
    (fun _ => Main.File 1)
    (fun _ => Main.Replaced).

(** The service lists pull request 5, then pull request 3; both are in
    the checkpoint already. *)
Definition world_all_processed : Main.world :=
  Main.mkWorld
    (fun i => match i with
              | O => [[Main.mkPrObj 5 None]]
              | _ => [[Main.mkPrObj 3 None]]
              end)
    (fun _ => orderly_pool [("README.md", Some "text")])
    (fun _ => Main.File 1)
    (fun _ => Main.Replaced).

Definition checkpoint_3_5 : Main.metadata := Main.mkMetadata [3; 5] 0 0 None.


(** The state of a fresh run that holds the record of pull request 7. *)
Definition state_with_row_7 : Main.state :=
  Main.record_row (Main.initial_state None) (Main.mkPrObj 7 None)
                  (plain_pr 7 [("a.py", Some "x = 1")]).


(** The pool hands back what it was given: a record comes from a
    submitted request and bears the number that was asked for. *)
Definition honest_pool (w : Main.world) : Prop :=
  forall i prs pr d,
    (pr, Some d) ∈ Main.as_completed w i prs ->
    pr ∈ prs /\ GithubUtils.number d = Main.pr_number pr.

(** A pull-request number below the cursor [C] that is not among the
    processed numbers [P] of the checkpoint. *)
Definition fresh (C : Z) (P : list Z) (n : Z) : Prop := n < C /\ n ∉ P.

(** What holds of the state all along a run resumed from a checkpoint
    with cursor [C] and processed numbers [P]. *)
Definition resumed (C : Z) (P : list Z) (st : Main.state) : Prop :=
  (forall n, n ∈ P -> n ∈ Main.existing_pr_numbers st)
  /\ (exists c, Main.lowest_pr_number st = Some c /\ c <= C)
  /\ Forall (fun d => fresh C P (GithubUtils.number d)) (Main.df_rows st)
  /\ Forall (fun f => Forall (fun d => fresh C P (GithubUtils.number d)) f.2)
            (Main.csv_files st)
  /\ Forall (fresh C P) (Main.submitted st).

(** The service holds pull requests 9, 8 (merged), 6 and 4; the
    checkpoint has processed 6 with cursor 9. *)
Definition world_resume : Main.world :=
  Main.mkWorld
    (fun _ => [[Main.mkPrObj 9 None; Main.mkPrObj 8 (Some "2024-01-01");
                Main.mkPrObj 6 None; Main.mkPrObj 4 None]])
    (fun _ => orderly_pool [("a.py", Some "x = 1")])
    (fun _ => Main.File 1)
    (fun _ => Main.Replaced).

Definition checkpoint_resume : Main.metadata :=
  Main.mkMetadata [6] 1 1 (Some 9).

End Spec.

(** ** What the visitor's counters stand for *)

Module TreeCounts.

Import FeatureExtraction.








End TreeCounts.

(** ** Line kinds and sample bounds *)

Module LineKinds.

Import FeatureExtraction.

(** A line that is neither blank nor a comment. *)
Definition is_source_line (l : list ascii) : bool :=
  negb (is_blank_line l) && negb (is_comment_line l).

End LineKinds.

(** ** The shape of the aggregate record *)

Module AggregateShape.

Import FeatureExtraction.

(** The three entries the aggregator writes for a metric key. *)
Definition aggregate_names (key : string) : list string :=
  [("min_" ++ key)%string; ("avg_" ++ key)%string; ("max_" ++ key)%string].

(** The keys a non-Python file never gets a value for. *)
Definition python_only_keys : list string :=
  structural_keys ++ ["avg_cc"; "max_cc"; "lloc"; "multi_comments"].

End AggregateShape.

(** ** [build_initial_pr_dataframe]: "Ensure consistent columns" *)

Module Columns.

Section Rows.

(** The values of a row, with the value that stands for [None]. *)
Variable V : Type.
Variable none : V.

(** The union of [pr.keys()] over the rows. *)
Definition all_keys (df_rows : list (gmap string V)) : gset string :=
  ⋃ (dom <$> df_rows).

(** [for k in all_keys: if k not in pr: pr[k] = None] *)
Definition fill_missing (ks : list string) (pr : gmap string V)
  : gmap string V :=
  foldr (fun k pr' =>
           match pr' !! k with
           | Some _ => pr'
           | None => <[k := none]> pr'
           end) pr ks.

Definition ensure_consistent_columns (df_rows : list (gmap string V))
  : list (gmap string V) :=
  map (fill_missing (elements (all_keys df_rows))) df_rows.

End Rows.

End Columns.

(** ** Listing pull requests page by page *)

Module Listing.

Import Main.

(** The pages up to the first empty one, which ends both listings. *)
Fixpoint until_empty_page {A} (pages : list (list A)) : list (list A) :=
  match pages with
  | [] => []
  | [] :: _ => []
  | page :: later => page :: until_empty_page later
  end.

(** *** [fetch_pr_list] of github_utils.py *)

Definition items_per_page : Z := 100.

(** [for pr in page_items] on the page the listing starts at: the first
    [skip_in_page] entries are passed over, merged or not. *)
Fixpoint scan_start_page (skip_in_page max_prs : Z)
    (page_items : list pr_obj) (skipped : Z) (all_prs : list pr_obj)
  : list pr_obj :=
  match page_items with
  | [] => all_prs
  | pr :: rest =>
      if skipped <? skip_in_page
      then scan_start_page skip_in_page max_prs rest (skipped + 1) all_prs
      else if bool_decide (is_Some (pr_merged_at pr))
      then scan_start_page skip_in_page max_prs rest skipped all_prs
      else
        let all_prs' := all_prs ++ [pr] in
        if max_prs <=? len all_prs' then all_prs'
        else scan_start_page skip_in_page max_prs rest skipped all_prs'
  end.

(** [pages] are the pages of the service from page 0 on. *)
Definition fetch_pr_list (pages : list (list pr_obj)) (max_prs skip : Z)
  : list pr_obj :=
  let start_page := skip / items_per_page in
  let skip_in_page := skip mod items_per_page in
  if 0 <? max_prs then
    match drop (Z.to_nat start_page) pages with
    | [] => []
    | [] :: _ => []
    | page_items :: later =>
        scan_pages None max_prs later
                   (scan_start_page skip_in_page max_prs page_items 0 [])
    end
  else [].

(** Unmerged, and below the cursor when there is one. *)
Definition listed (max_pr_number : option Z) (pr : pr_obj) : Prop :=
  skipped max_pr_number pr = false.

#[global] Instance listed_dec m pr : Decision (listed m pr).
Proof. unfold listed. apply _. Defined.

End Listing.

(** ** github_utils.py: the rotating clients and the retrying call *)

Module GithubClient.

Section Clients.

Variable client : Type.
(** The pool [TOKENS]. *)
Variable TOKENS : list client.

(** [_get_client]: the client at [token_index] ([None] stands for the
    [IndexError] of an index outside the pool) and the index afterwards. *)
Definition _get_client (token_index : nat) : option client * nat :=
  (TOKENS !! token_index, ((token_index + 1) mod length TOKENS)%nat).

(** The clients handed out by [k] calls in a row, and the index left. *)
Fixpoint get_clients (k : nat) (token_index : nat)
  : list (option client) * nat :=
  match k with
  | O => ([], token_index)
  | S k' =>
      let '(c, next) := _get_client token_index in
      let '(cs, final) := get_clients k' next in
      (c :: cs, final)
  end.

End Clients.

(** What one attempt of [func(client, ...)] meets: it returns, or raises
    [RateLimitExceededException], another [GithubException] with its
    status, or any other exception.  [reset] is the header
    [X-RateLimit-Reset], 0 when the header is missing. *)
Inductive attempt (A : Type) :=
  | Returns (a : A)
  | RateLimitExceeded (reset : Z)
  | GithubError (status reset : Z)
  | OtherError.
Arguments Returns {A} a.
Arguments RateLimitExceeded {A} reset.
Arguments GithubError {A} status reset.
Arguments OtherError {A}.

(** How [_safe_github_call] ends: with the value, or by raising the
    [GithubException] again. *)
Inductive ending (A : Type) :=
  | Value (a : A)
  | Raises (status reset : Z).
Arguments Value {A} a.
Arguments Raises {A} status reset.

(** [max(reset - int(time.time()), 5)] *)
Definition wait_for (reset now : Z) : Z := Z.max (reset - now) 5.

Section SafeCall.

Variable A : Type.
(** The clock read at the [k]-th attempt. *)
Variable now : nat -> Z.
Variable n_tokens : nat.

(** What is known after a number of attempts: how the call ended, if it
    has, the index of the next client and the sleeps so far, newest
    first. *)
Record progress := mkProgress {
  ended : option (ending A);
  token_index : nat;
  sleeps : list Z
}.

(** [while True:] over the attempts that are given; [k] numbers them. *)
Fixpoint _safe_github_call (attempts : list (attempt A)) (k : nat)
    (index : nat) (slept : list Z) : progress :=
  match attempts with
  | [] => mkProgress None index slept
  | a :: later =>
      let index' := ((index + 1) mod n_tokens)%nat in
      match a with
      | Returns v => mkProgress (Some (Value v)) index' slept
      | RateLimitExceeded reset =>
          _safe_github_call later (S k) index'
                            (wait_for reset (now k) :: slept)
      | GithubError status reset =>
          if (status =? 403) && (0 <? reset)
          then _safe_github_call later (S k) index'
                                 (wait_for reset (now k) :: slept)
          else mkProgress (Some (Raises status reset)) index' slept
      | OtherError =>
          _safe_github_call later (S k) index' (2 :: slept)
      end
  end.

(** An attempt after which the call tries again. *)
Definition retried (a : attempt A) : bool :=
  match a with
  | Returns _ => false
  | RateLimitExceeded _ => true
  | GithubError status reset => (status =? 403) && (0 <? reset)
  | OtherError => true
  end.

(** How the call ends on an attempt that is not retried. *)
Definition ending_of (a : attempt A) : option (ending A) :=
  match a with
  | Returns v => Some (Value v)
  | GithubError status reset => Some (Raises status reset)
  | _ => None
  end.

End SafeCall.

End GithubClient.

(** ** Statements about runs of the loop, and sample runs *)

Module RunProperties.

Import GithubUtils Main Spec.


(** Every write of a batch reports saved rows. *)
Definition all_saved (w : world) : Prop :=
  forall k, 0 < rows_saved_of (write_csv w k).

(** The rows of the batch files written from [st] to [st']. *)
Definition written_between (st st' : state) (new : list (Z * list pr_dict))
  : Prop :=
  csv_files st' = new ++ csv_files st.

Definition rows_in (files : list (Z * list pr_dict)) : Z :=
  fold_right (fun f n => len f.2 + n) 0 files.

(** The checkpoint of a run one record short of the target. *)
Definition checkpoint_one_short : metadata :=
  mkMetadata [] (TARGET_PRS_WITH_PYTHON - 1) 99 None.

End RunProperties.

(** ** Accounts of a run, and more sample runs *)

Module RunAccounts.

Import GithubUtils Main Spec RunProperties.

(** A batch file of the right size: at least one row, at most
    [SAVE_EVERY]. *)
Definition well_sized (f : Z * list pr_dict) : Prop :=
  0 < len f.2 <= SAVE_EVERY.

(** From [st] to [st'] the batch files [new] were written; they are well
    sized, fewer than [SAVE_EVERY] rows are pending, and every record
    counted since [st] is pending or in one of these files. *)
Definition accounted (st st' : state) (new : list (Z * list pr_dict))
  : Prop :=
  len (df_rows st') < SAVE_EVERY
  /\ written_between st st' new
  /\ Forall well_sized new
  /\ processed_with_python st' + len (df_rows st)
     = processed_with_python st + len (df_rows st') + rows_in new.

(** The service lists the unmerged pull request 7, which has a Python
    file; every write succeeds. *)
Definition world_python_pr : world :=
  mkWorld
    (fun _ => [[mkPrObj 7 None]])
    (fun _ => orderly_pool [("a.py", Some "x = 1")])
    (fun _ => File 1)
    (fun _ => Replaced).

End RunAccounts.

(** ** Restarting, and the ends of a run *)

Module Restart.

Import GithubUtils Main Spec RunProperties.

(** A state and the state a new process would start from agree on what
    the checkpoint holds. *)
Definition same_progress (st r : state) : Prop :=
  existing_pr_numbers r = existing_pr_numbers st
  /\ processed_with_python r = processed_with_python st
  /\ csv_file_counter r = csv_file_counter st
  /\ lowest_pr_number r = lowest_pr_number st
  /\ df_rows r = df_rows st.

(** Every pull request the service lists, in any turn, is in the
    processed set already. *)
Definition nothing_new (w : world) (st : state) : Prop :=
  forall i pr, pr ∈ concat (get_pages w i) ->
               pr_number pr ∈ existing_pr_numbers st.

End Restart.

(** ** Letter case, file order and the rows of a run *)

Module MoreProperties.

Import GithubUtils Main Spec.

(** [str.upper] below U+0080. *)
Definition upper_char (c : ascii) : ascii :=
  let n := Text.code c in
  if ((97 <=? n) && (n <=? 122))%N then ascii_of_N (n - 32) else c.

Definition upper (t : string) : string :=
  string_of_list_ascii (map upper_char (list_ascii_of_string t)).

Definition lower (t : string) : string :=
  string_of_list_ascii (Text.lower (list_ascii_of_string t)).

(** The three labels of a title. *)
Definition labels (title : option string) : Z * Z * Z :=
  (FeatureExtraction.is_bugfix title, FeatureExtraction.is_refactor title,
   FeatureExtraction.is_feature title).


(** Every row, pending or written since [old], has a Python file and a
    number in the processed set. *)
Definition rows_are_python_and_processed
    (old : list (Z * list pr_dict)) (st : state) : Prop :=
  Forall (fun d => _has_python_files d = true
                   /\ number d ∈ existing_pr_numbers st) (df_rows st)
  /\ exists new,
       csv_files st = new ++ old
       /\ Forall (fun f =>
                    Forall (fun d => _has_python_files d = true
                                     /\ number d ∈ existing_pr_numbers st)
                           f.2) new.

End MoreProperties.

(** * Theorems *)

(** ** The visitor *)

Section Visitor.

Import FeatureExtraction Spec.











End Visitor.

(** ** The two extractors *)

Section ExtractorTheorems.

Import FeatureExtraction.

Variable ast_parse : string -> option node.
Variable raw_analyze : string -> option raw_module.
Variable cc_visit : string -> option (list Z).

Local Abbreviation python_metrics :=
  (compute_python_metrics ast_parse raw_analyze cc_visit).

(** Look a literal key up in a dictionary built by literal insertions. *)
Ltac lookup_literal :=
  repeat first [ rewrite lookup_insert_eq
               | rewrite lookup_insert_ne by done
               | rewrite lookup_empty ].

Lemma all_None_structural :
  all_None structural_keys =
  <["max_nesting" := VNone]> (<["func_count" := VNone]>
  (<["max_args" := VNone]> (<["call_count" := VNone]>
  (<["if_count" := VNone]> (<["loop_count" := VNone]> ∅))))).
Proof. reflexivity. Qed.

Lemma python_metrics_unfold file_content :
  python_metrics file_content =
  <["blank" := (raw_metrics raw_analyze file_content).2]>
  (<["multi_comments" := (raw_metrics raw_analyze file_content).1.2]>
  (<["comments" := (raw_metrics raw_analyze file_content).1.1.2]>
  (<["sloc" := (raw_metrics raw_analyze file_content).1.1.1.2]>
  (<["lloc" := (raw_metrics raw_analyze file_content).1.1.1.1.2]>
  (<["loc" := (raw_metrics raw_analyze file_content).1.1.1.1.1]>
  (<["max_cc" := (cc_metrics cc_visit file_content).2]>
  (<["avg_cc" := (cc_metrics cc_visit file_content).1]>
     (ast_metrics ast_parse file_content)))))))).
Proof.
  unfold compute_python_metrics.
  destruct (raw_metrics raw_analyze file_content)
    as [[[[[loc lloc] sloc] comments] multi] blank].
  by destruct (cc_metrics cc_visit file_content) as [avg_cc max_cc].
Qed.

(** The structural fields are read from the structural dictionary. *)
Lemma python_metrics_structural file_content key :
  key ∈ structural_keys ->
  python_metrics file_content !! key
  = ast_metrics ast_parse file_content !! key.
Proof.
  intros Hkey. rewrite python_metrics_unfold.
  unfold structural_keys in Hkey.
  repeat (apply elem_of_cons in Hkey as [->|Hkey]);
    [lookup_literal; reflexivity .. | by apply elem_of_nil in Hkey].
Qed.

(** The Python path returns every one of the fourteen keys. *)
Lemma python_metrics_has_all_keys file_content :
  Forall (fun key => is_Some (python_metrics file_content !! key)) keys.
Proof.
  rewrite python_metrics_unfold. unfold ast_metrics.
  destruct (ast_parse file_content) as [tree|];
    [|rewrite all_None_structural];
    repeat constructor; lookup_literal; eauto.
Qed.

(** The heuristic path returns thirteen of them. *)
Lemma basic_metrics_keys content :
  Forall (fun key => is_Some (compute_basic_metrics content !! key))
    ["max_nesting"; "func_count"; "max_args"; "call_count"; "if_count";
     "loop_count"; "avg_cc"; "max_cc"; "loc"; "sloc"; "comments";
     "multi_comments"; "blank"].
Proof.
  unfold compute_basic_metrics. repeat constructor; lookup_literal; eauto.
Qed.

(** C1, evaluated on the code.  The Python path returns all fourteen
    keys, whatever the three library calls do.  The heuristic path, taken
    for every file name without the [.py] suffix, returns a record in
    which the key [lloc] is missing: it is not mapped to [None], it is
    not in the key set. *)
Theorem C1_heuristic_path_omits_lloc (content : string) :
  Forall (fun key => is_Some (python_metrics content !! key)) keys
  /\ Forall (fun key => is_Some (compute_basic_metrics content !! key))
       ["max_nesting"; "func_count"; "max_args"; "call_count"; "if_count";
        "loop_count"; "avg_cc"; "max_cc"; "loc"; "sloc"; "comments";
        "multi_comments"; "blank"]
  /\ compute_basic_metrics content !! "lloc" = None
  /\ "lloc" ∈ keys
  /\ file_metrics ast_parse raw_analyze cc_visit "README.md" "x = 1"
       !! "lloc" = None.
Proof.
  split; [apply python_metrics_has_all_keys|].
  split; [apply basic_metrics_keys|].
  split; [|split].
  - unfold compute_basic_metrics. by lookup_literal.
  - unfold keys. do 9 right. left.
  - change (compute_basic_metrics "x = 1" !! "lloc" = None).
    unfold compute_basic_metrics. by lookup_literal.
Qed.

(** C3. When parsing raises, the six structural fields are [None]
    together.  The extractor is a total function of the three outcomes:
    whichever of them fails, a record is returned, the line-kind fields
    are decided by the raw analysis alone and the complexity fields by
    the complexity visit alone. *)
Theorem C3_parse_failure_blanks_structural_fields (file_content : string) :
  ast_parse file_content = None ->
  Forall (fun key => python_metrics file_content !! key = Some VNone)
         structural_keys
  /\ (python_metrics file_content !! "loc",
      python_metrics file_content !! "lloc",
      python_metrics file_content !! "sloc",
      python_metrics file_content !! "comments",
      python_metrics file_content !! "multi_comments",
      python_metrics file_content !! "blank")
     = match raw_analyze file_content with
       | Some raw =>
           (Some (VInt (raw_loc raw)), Some (VInt (raw_lloc raw)),
            Some (VInt (raw_sloc raw)), Some (VInt (raw_comments raw)),
            Some (VInt (raw_multi raw)), Some (VInt (raw_blank raw)))
       | None =>
           (Some VNone, Some VNone, Some VNone, Some VNone, Some VNone,
            Some VNone)
       end
  /\ (python_metrics file_content !! "avg_cc",
      python_metrics file_content !! "max_cc")
     = match cc_visit file_content with
       | Some (c :: cs) =>
           (Some (py_float (np_mean (map inject_Z (c :: cs)))),
            Some (py_float (to_Q (py_max (VInt c) (map VInt cs)))))
       | _ => (Some VNone, Some VNone)
       end.
Proof.
  intros Hparse. split; [|split].
  - apply Forall_forall. intros key Hkey.
    rewrite python_metrics_structural by exact Hkey.
    unfold ast_metrics. rewrite Hparse, all_None_structural.
    unfold structural_keys in Hkey.
    repeat (apply elem_of_cons in Hkey as [->|Hkey]);
      [by lookup_literal .. | by apply elem_of_nil in Hkey].
  - rewrite python_metrics_unfold. lookup_literal.
    unfold raw_metrics. by destruct (raw_analyze file_content).
  - rewrite python_metrics_unfold. lookup_literal.
    unfold cc_metrics.
    destruct (cc_visit file_content) as [[|c cs]|]; try reflexivity.
    cbn [fst snd]. do 3 f_equal.
    rewrite map_map. reflexivity.
Qed.

End ExtractorTheorems.

(** A parser that rejects one text, with the other two calls failing on
    it as well. *)
Lemma C3_witness :
  let parse := fun s : string =>
    if String.eqb s "def f(:" then None
    else Some (FeatureExtraction.Node FeatureExtraction.Other []) in
  parse "def f(:" = None
  /\ Forall (fun key =>
       FeatureExtraction.compute_python_metrics parse (fun _ => None)
         (fun _ => None) "def f(:" !! key = Some VNone)
     FeatureExtraction.structural_keys.
Proof.
  split; [reflexivity|].
  apply (C3_parse_failure_blanks_structural_fields
           (fun s : string =>
              if String.eqb s "def f(:" then None
              else Some (FeatureExtraction.Node FeatureExtraction.Other []))
           (fun _ => None) (fun _ => None) "def f(:").
  reflexivity.
Defined.

(** ** The aggregator *)

Section AggregatorTheorems.

Import FeatureExtraction Spec.

Lemma Qlt_bool_true a b : Qlt_bool a b = true -> (a <= b)%Q.
Proof.
  unfold Qlt_bool. intros H. apply negb_true_iff in H.
  apply Qlt_le_weak, Qnot_le_lt. intros Hle.
  apply Qle_bool_iff in Hle. congruence.
Qed.

Lemma Qlt_bool_false a b : Qlt_bool a b = false -> (b <= a)%Q.
Proof.
  unfold Qlt_bool. intros H. apply negb_false_iff in H.
  by apply Qle_bool_iff.
Qed.


(** [max] returns an element of its argument that is above all of them. *)
Lemma py_max_spec vs : forall v,
  py_max v vs ∈ v :: vs
  /\ Forall (fun x => (to_Q x <= to_Q (py_max v vs))%Q) (v :: vs).
Proof.
  unfold py_max. induction vs as [|x xs IH]; intros v; simpl.
  - split; [left|]. repeat constructor. apply Qle_refl.
  - destruct (IH (if Qlt_bool (to_Q v) (to_Q x) then x else v))
      as [Hin Hall].
    apply Forall_cons in Hall as [Hhd Htl].
    destruct (Qlt_bool (to_Q v) (to_Q x)) eqn:Hlt.
    + apply Qlt_bool_true in Hlt. split.
      * apply elem_of_cons in Hin as [->|Hin]; [right; left | by do 2 right].
      * repeat constructor; [by eapply Qle_trans|done|done].
    + apply Qlt_bool_false in Hlt. split.
      * apply elem_of_cons in Hin as [->|Hin]; [left | by do 2 right].
      * repeat constructor; [done|by eapply Qle_trans|done].
Qed.


Variable files_metrics : list (gmap string pyval).

Local Abbreviation holds := (Spec.holds files_metrics).

Lemma aggregate_key_lookup agg key0 key :
  aggregate_key files_metrics agg key0 !! ("min_" ++ key)%string
  = (if decide (key0 = key) then Some (min_of (values_of key files_metrics))
     else agg !! ("min_" ++ key)%string)
  /\ aggregate_key files_metrics agg key0 !! ("avg_" ++ key)%string
  = (if decide (key0 = key) then Some (avg_of (values_of key files_metrics))
     else agg !! ("avg_" ++ key)%string)
  /\ aggregate_key files_metrics agg key0 !! ("max_" ++ key)%string
  = (if decide (key0 = key) then Some (max_of (values_of key files_metrics))
     else agg !! ("max_" ++ key)%string).
Proof.
  unfold aggregate_key.
  destruct (decide (key0 = key)) as [->|Hne];
    destruct (values_of _ files_metrics) as [|v vs];
    (split; [|split]);
    repeat first
      [ rewrite lookup_insert_eq
      | rewrite lookup_insert_ne by (cbv [String.append]; congruence) ];
    reflexivity.
Qed.

(** Later turns of the loop leave the entries of an earlier key alone. *)
Lemma fold_aggregate_keeps key ks : forall agg,
  holds agg key ->
  holds (fold_left (aggregate_key files_metrics) ks agg) key.
Proof.
  induction ks as [|k1 ks IH]; intros agg Hagg; [exact Hagg|].
  simpl. apply IH. unfold holds.
  destruct (aggregate_key_lookup agg k1 key) as (-> & -> & ->).
  destruct (decide (k1 = key)); [done|exact Hagg].
Qed.

Lemma fold_aggregate_lookup ks : forall agg key,
  key ∈ ks ->
  holds (fold_left (aggregate_key files_metrics) ks agg) key.
Proof.
  induction ks as [|k0 ks IH]; intros agg key Hin;
    [by apply elem_of_nil in Hin|].
  simpl. destruct (decide (k0 = key)) as [->|Hne].
  - apply fold_aggregate_keeps. unfold holds.
    destruct (aggregate_key_lookup agg key key) as (-> & -> & ->).
    destruct (decide (key = key)); [done|congruence].
  - apply IH. apply elem_of_cons in Hin as [->|Hin]; done.
Qed.

End AggregatorTheorems.

Section AggregatorClaim.

Import FeatureExtraction Spec.



End AggregatorClaim.

(** ** Keyword labels *)

Section LabelTheorems.

Import FeatureExtraction Spec.











End LabelTheorems.

(** ** The fetched record *)

Section FetchTheorems.

Import GithubUtils Spec.

(** C10. A count that the service reports as zero, or does not report,
    is stored as -1, for each of additions, deletions, changed files and
    commits; a count other than zero is stored as it is.  The record of a
    pull request with all counts zero is the record of the same pull
    request with all counts missing. *)
Theorem C10_zero_count_stored_as_minus_one
    (pr : api_pull) (files : option (list (string * option string))) :
  Forall (fun field =>
            (field.1 pr = Some 0 \/ field.1 pr = None ->
             field.2 (fetch_single_pr pr files) = -1)
            /\ (forall n, n <> 0 -> field.1 pr = Some n ->
                field.2 (fetch_single_pr pr files) = n))
         count_fields
  /\ fetch_single_pr (with_counts pr (Some 0)) files
     = fetch_single_pr (with_counts pr None) files.
Proof.
  split; [|reflexivity].
  repeat constructor; simpl.
  all: try (intros [-> | ->]; reflexivity).
  all: intros n Hn ->; by destruct n.
Qed.

End FetchTheorems.

(** ** The fetch loop *)

Section OrchestratorSteps.

Import GithubUtils Main Spec.

Lemma py_min_Z_spec (l : list Z) (m : Z) :
  py_min_Z l = Some m -> m ∈ l /\ Forall (fun x => m <= x) l.
Proof.
  destruct l as [|x xs]; [done|]. intros [= <-].
  revert x. induction xs as [|y ys IH]; intros x; simpl.
  - split; [left|]. repeat constructor. lia.
  - destruct (IH (Z.min x y)) as [Hin Hall].
    apply Forall_cons in Hall as [Hhd Htl]. split.
    + apply elem_of_cons in Hin as [Heq|Hin]; [|by do 2 right].
      rewrite Heq. destruct (Z.min_spec x y) as [[_ ->]|[_ ->]];
        [left|right; left].
    + repeat constructor; [lia|lia|done].
Qed.

(** What a batch write never touches. *)
Lemma save_batch_keeps w st :
  existing_pr_numbers (save_batch w st) = existing_pr_numbers st
  /\ processed_with_python (save_batch w st) = processed_with_python st
  /\ submitted (save_batch w st) = submitted st
  /\ skipped_no_python (save_batch w st) = skipped_no_python st
  /\ save_calls (save_batch w st) = S (save_calls st).
Proof.
  unfold save_batch.
  destruct (_save_batch_to_separate_csv _ _ _ _) as [rows files].
  by destruct (0 <? rows).
Qed.

(** A batch write either reports no saved row and leaves the cursor, the
    checkpoint file and the pending batch as they were, or reports saved
    rows, writes the batch under the next counter, moves the cursor to the
    smallest number of the batch and empties the pending batch. *)
Lemma save_batch_cases w st :
  (rows_saved_of (write_csv w (save_calls st)) <= 0 \/ df_rows st = [])
  /\ df_rows (save_batch w st) = df_rows st
  /\ lowest_pr_number (save_batch w st) = lowest_pr_number st
  /\ metadata_file (save_batch w st) = metadata_file st
  /\ (csv_files (save_batch w st) = csv_files st
      \/ csv_files (save_batch w st)
         = (csv_file_counter st + 1, df_rows st) :: csv_files st)
  \/
  0 < rows_saved_of (write_csv w (save_calls st))
  /\ df_rows st <> []
  /\ df_rows (save_batch w st) = []
  /\ lowest_pr_number (save_batch w st)
     = py_min_Z (map number (df_rows st))
  /\ csv_files (save_batch w st)
     = (csv_file_counter st + 1, df_rows st) :: csv_files st.
Proof.
  unfold save_batch, _save_batch_to_separate_csv.
  destruct (df_rows st) as [|d rows] eqn:Hrows.
  - left. simpl. repeat split; auto.
  - destruct (write_csv w (save_calls st)) as [|n] eqn:Hw.
    + left. simpl. repeat split; auto. left. lia.
    + destruct (0 <? n) eqn:Hn.
      * right. apply Z.ltb_lt in Hn. simpl. repeat split; auto.
      * left. apply Z.ltb_ge in Hn. simpl. repeat split; auto.
Qed.



(** C8, as the code has it.  A turn of the loop leaves it exactly when
    the counter has reached the target, before the turn or after it, or
    when the listing of the turn returns no unmerged pull request below
    the cursor.  A listing that returns pull requests which are all
    processed already does not leave the loop: the cursor moves to one
    below the smallest listed number and the loop goes on. *)
Theorem C8_exit_on_target_or_empty_listing
    (w : world) (i : nat) (st : state) :
  (is_exit (iteration w i st) = true
   <-> TARGET_PRS_WITH_PYTHON <= processed_with_python st
       \/ pr_objs_of w i st = []
       \/ TARGET_PRS_WITH_PYTHON
          <= processed_with_python (state_of (iteration w i st)))
  /\ (processed_with_python st < TARGET_PRS_WITH_PYTHON ->
      pr_objs_of w i st <> [] ->
      new_pr_objs_of w i st = [] ->
      iteration w i st
      = Again (set_lowest st
                 ((fun m => m - 1)
                    <$> py_min_Z (map pr_number (pr_objs_of w i st))))).
Proof.
  unfold iteration, loop_body. split.
  - destruct (processed_with_python st <? TARGET_PRS_WITH_PYTHON) eqn:Hlt.
    + apply Z.ltb_lt in Hlt.
      destruct (pr_objs_of w i st) as [|pr0 prs] eqn:Hprs.
      { simpl. split; auto. }
      destruct (new_pr_objs_of w i st) as [|n0 ns] eqn:Hnew.
      { simpl. split; [done|]. intros [H|[H|H]]; [lia|done|lia]. }
      match goal with
      | |- context [update_lowest ?x] => set (st3 := update_lowest x)
      end.
      destruct (TARGET_PRS_WITH_PYTHON <=? processed_with_python st3) eqn:Ht.
      * apply Z.leb_le in Ht. simpl. split; auto.
      * apply Z.leb_gt in Ht. simpl. split; [done|].
        intros [H|[H|H]]; [lia|done|lia].
    + apply Z.ltb_ge in Hlt. simpl. split; auto.
  - intros Hlt Hprs Hnew. apply Z.ltb_lt in Hlt. rewrite Hlt, Hnew.
    by destruct (pr_objs_of w i st).
Qed.

(** The rule of C8 as the specification words it fails in both
    directions.  With one pull request on the service, the loop is left
    after the second turn, whose listing is empty, although the counter is
    0 and the first turn had found a new pull request.  With listings that
    hold processed pull requests only, two turns in a row find nothing new
    and the loop is not left. *)
Lemma C8_counterexample :
  ~ stated_exit_rule world_one_pr 0 (initial_state None)
  /\ ~ stated_exit_rule world_all_processed 0
         (initial_state (Some checkpoint_3_5)).
Proof.
  split; intros H; unfold stated_exit_rule in H.
  - specialize (H _ eq_refl). destruct H as [H _].
    destruct (H eq_refl) as [Hge|[Hnew _]].
    + vm_compute in Hge. by apply Hge.
    + vm_compute in Hnew. discriminate Hnew.
  - specialize (H _ eq_refl). destruct H as [_ H].
    assert (Hexit : is_exit
      (iteration world_all_processed 1
         (set_lowest (initial_state (Some checkpoint_3_5)) (Some 4)))
      = true).
    { apply H. right. split; vm_compute; reflexivity. }
    vm_compute in Hexit. discriminate Hexit.
Qed.






Section AllWritesFail.

Variable w : world.






End AllWritesFail.



End OrchestratorSteps.

(** ** Resuming from a checkpoint *)

Section Resumption.

Import GithubUtils Main Spec.

Lemma scan_page_elem m max_prs items : forall all_prs pr,
  pr ∈ scan_page m max_prs items all_prs ->
  pr ∈ all_prs \/ (pr ∈ items /\ skipped m pr = false).
Proof.
  induction items as [|x items IH]; intros all_prs pr Hin; simpl in Hin;
    [by left|].
  destruct (skipped m x) eqn:Hx.
  - destruct (IH _ _ Hin) as [H|[H ?]]; [by left|]. right. by split; [right|].
  - assert (pr ∈ all_prs ++ [x] -> pr ∈ all_prs \/ pr ∈ x :: items /\ skipped m pr = false) as Hnew.
    { intros H. apply elem_of_app in H as [H|H]; [by left|].
      apply list_elem_of_singleton in H as ->. right. by split; [left|]. }
    destruct (max_prs <=? len (all_prs ++ [x])); [by apply Hnew|].
    destruct (IH _ _ Hin) as [H|[H ?]]; [by apply Hnew|].
    right. by split; [right|].
Qed.

Lemma scan_pages_elem m max_prs pages : forall all_prs pr,
  pr ∈ scan_pages m max_prs pages all_prs ->
  pr ∈ all_prs \/ skipped m pr = false.
Proof.
  induction pages as [|page pages IH]; intros all_prs pr Hin; simpl in Hin.
  - left. by destruct (len all_prs <? max_prs).
  - destruct (len all_prs <? max_prs); [|by left].
    destruct page as [|x page]; [by left|].
    destruct (IH _ _ Hin) as [H|H]; [|by right].
    destruct (scan_page_elem _ _ _ _ _ H) as [?|[_ ?]]; [by left|by right].
Qed.

(** The listing holds unmerged pull requests below the cursor only. *)
Lemma fetch_below_cursor pages c max_prs pr :
  pr ∈ fetch_pr_list_descending pages (Some c) max_prs ->
  pr_number pr < c /\ pr_merged_at pr = None.
Proof.
  intros Hin. apply scan_pages_elem in Hin as [Hin|Hs];
    [by apply elem_of_nil in Hin|].
  unfold skipped in Hs. apply orb_false_iff in Hs as [Hc Hm].
  apply Z.leb_gt in Hc. split; [done|].
  apply bool_decide_eq_false in Hm.
  destruct (pr_merged_at pr); [|done]. by destruct Hm.
Qed.

Variable C : Z.
Variable P : list Z.
Variable w : world.
Hypothesis pool : honest_pool w.

Lemma save_batch_resumed st : resumed C P st -> resumed C P (save_batch w st).
Proof.
  intros (HP & (c & Hc & Hle) & Hrows & Hfiles & Hsub). unfold resumed.
  destruct (save_batch_keeps w st) as (-> & _ & -> & _).
  split; [done|].
  destruct (save_batch_cases w st)
    as [(_ & -> & -> & _ & Hcsv)|(_ & Hne & -> & -> & ->)].
  - split; [by exists c|]. split; [done|]. split; [|done].
    destruct Hcsv as [->| ->]; [done|]. by constructor.
  - split.
    + destruct (py_min_Z (map number (df_rows st))) as [m|] eqn:Hm.
      * exists m. split; [done|]. apply py_min_Z_spec in Hm as [Hm _].
        apply list_elem_of_fmap in Hm as (d & -> & Hd).
        rewrite Forall_forall in Hrows. destruct (Hrows d Hd). lia.
      * destruct (df_rows st); [done|discriminate Hm].
    + split; [constructor|]. split; [by constructor|done].
Qed.

Lemma on_completed_resumed st c :
  resumed C P st ->
  (forall d, c.2 = Some d ->
             number d = pr_number c.1 /\ fresh C P (pr_number c.1)) ->
  resumed C P (on_completed w st c).1.
Proof.
  intros Hst Hc. unfold on_completed. destruct c.2 as [d|]; [|done].
  destruct (Hc d eq_refl) as [Hnum Hfresh].
  destruct Hst as (HP & Hlow & Hrows & Hfiles & Hsub).
  destruct (_has_python_files d); cbn [negb fst].
  - assert (resumed C P (record_row st c.1 d)) as Hrow.
    { unfold resumed. simpl.
      split; [intros n Hn; apply elem_of_union; right; by apply HP|].
      split; [done|].
      split; [|done]. apply Forall_app. split; [done|].
      repeat constructor; rewrite Hnum; apply Hfresh. }
    destruct (SAVE_EVERY <=? _); [by apply save_batch_resumed|done].
  - unfold resumed. simpl.
    split; [intros n Hn; apply elem_of_union; right; by apply HP|done].
Qed.

Lemma process_completed_resumed l : forall st,
  resumed C P st ->
  Forall (fun c => forall d, c.2 = Some d ->
            number d = pr_number c.1 /\ fresh C P (pr_number c.1)) l ->
  resumed C P (process_completed w st l).
Proof.
  induction l as [|c l IH]; intros st Hst Hl; [done|].
  apply Forall_cons in Hl as [Hc Hl]. simpl.
  pose proof (on_completed_resumed st c Hst Hc) as Hst'.
  destruct (on_completed w st c) as [st' leave]. simpl in Hst'.
  destruct leave; [done|by apply IH].
Qed.

Lemma save_remaining_resumed st :
  resumed C P st -> resumed C P (save_remaining w st).
Proof.
  intros Hst. unfold save_remaining. destruct (df_rows st); [done|].
  destruct (_ <? _); [by apply save_batch_resumed|done].
Qed.

Lemma set_lowest_resumed st c :
  resumed C P st -> c <= C -> resumed C P (set_lowest st (Some c)).
Proof.
  intros (HP & _ & Hrest) Hc. unfold resumed. simpl.
  split; [done|]. split; [by exists c|done].
Qed.

Lemma update_lowest_resumed st :
  resumed C P st -> resumed C P (update_lowest st).
Proof.
  intros Hst. unfold update_lowest. destruct (df_rows st); [|done].
  destruct (py_min_Z _) as [current_min|]; [|done].
  pose proof Hst as (_ & (c & Hc & Hle) & _). rewrite Hc.
  destruct (current_min <? c) eqn:Hlt; [|done].
  apply Z.ltb_lt in Hlt. apply set_lowest_resumed; [done|lia].
Qed.

Lemma submit_resumed st prs :
  resumed C P st ->
  Forall (fun pr => fresh C P (pr_number pr)) prs ->
  resumed C P (submit st prs).
Proof.
  intros (HP & Hlow & Hrows & Hfiles & Hsub) Hprs. unfold resumed.
  cbn [submit existing_pr_numbers lowest_pr_number df_rows csv_files
       submitted].
  repeat split; try done.
  apply Forall_app. split; [|done].
  apply Forall_forall. intros n Hn.
  rewrite list_elem_of_In, <- in_rev, <- list_elem_of_In in Hn.
  apply list_elem_of_fmap in Hn as (pr & -> & Hpr).
  rewrite Forall_forall in Hprs. by apply Hprs.
Qed.

(** One turn of the loop keeps the invariant, and what it hands to the
    workers is below the cursor and not in the processed set. *)
Lemma iteration_resumed i st :
  resumed C P st -> resumed C P (state_of (iteration w i st)).
Proof.
  intros Hst. unfold iteration, loop_body.
  destruct (_ <? _); [|done].
  pose proof Hst as (HP & (c & Hc & Hle) & Hrows & Hfiles & Hsub).
  assert (Hlisted : forall pr, pr ∈ pr_objs_of w i st -> pr_number pr < C).
  { intros pr Hpr. unfold pr_objs_of in Hpr. rewrite Hc in Hpr.
    apply fetch_below_cursor in Hpr as [Hpr _]. lia. }
  assert (Hnew : forall pr, pr ∈ new_pr_objs_of w i st ->
                            fresh C P (pr_number pr)).
  { intros pr Hpr. unfold new_pr_objs_of in Hpr.
    apply list_elem_of_filter in Hpr as [Hex Hpr]. split; [by apply Hlisted|].
    intros HinP. by apply Hex, HP. }
  destruct (pr_objs_of w i st) as [|pr0 prs] eqn:Hprs; [done|].
  destruct (new_pr_objs_of w i st) as [|n0 ns] eqn:Hns.
  - simpl. apply set_lowest_resumed; [done|].
    assert (Hm : py_min_Z (map pr_number (pr0 :: prs))
                 = Some (fold_left Z.min (map pr_number prs) (pr_number pr0)))
      by reflexivity.
    apply py_min_Z_spec in Hm as [Hm _].
    apply list_elem_of_fmap in Hm as (pr & Hm & Hpr).
    specialize (Hlisted pr Hpr). lia.
  - match goal with
    | |- context [process_completed w ?s ?l] =>
        assert (H1 : resumed C P (process_completed w s l))
    end.
    { apply process_completed_resumed.
      - apply submit_resumed; [done|]. apply Forall_forall. intros pr Hpr.
        by apply Hnew.
      - apply Forall_forall. intros [pr r] Hin d Hr. simpl in Hr. subst r.
        apply pool in Hin as [Hin Hnum]. split; [done|]. by apply Hnew. }
    apply save_remaining_resumed, update_lowest_resumed in H1.
    by destruct (_ <=? _).
Qed.

Lemma run_resumed fuel : forall i st,
  resumed C P st -> resumed C P (state_of (run w fuel i st)).
Proof.
  induction fuel as [|fuel IH]; intros i st Hst; [done|].
  simpl. pose proof (iteration_resumed i st Hst) as Hit.
  destruct (iteration w i st) as [st'|st']; [by apply IH|done].
Qed.

End Resumption.

Section ResumptionClaim.

Import GithubUtils Main Spec.

Lemma initial_state_resumed (md : metadata) (C : Z) :
  md_lowest_pr_number md = Some C ->
  resumed C (md_processed_pr_numbers md) (initial_state (Some md)).
Proof.
  intros Hc. unfold resumed, initial_state. simpl.
  split; [intros n Hn; by apply elem_of_list_to_set|].
  split; [exists C; split; [done|lia]|].
  repeat split; constructor.
Qed.

Lemma orderly_pool_honest files listing write meta :
  honest_pool (mkWorld listing (fun _ => orderly_pool files) write meta).
Proof.
  intros i prs pr d Hin. simpl in Hin. unfold orderly_pool in Hin.
  apply list_elem_of_fmap in Hin as (pr' & [= -> ->] & Hpr). by split.
Qed.

(** C5. A run resumed from a checkpoint with cursor [C] and processed
    set [P] never writes a batch row, nor keeps one pending, for a number
    in [P], and hands to the workers only numbers below [C] that are not
    in [P]; a listing made under a cursor returns only numbers below it,
    whatever the service sends.  The worker pool is taken to return the
    record of the pull request it was asked for. *)
Theorem C5_resumed_run_skips_processed_and_above_cursor
    (w : world) (md : metadata) (C : Z) (fuel : nat) :
  md_lowest_pr_number md = Some C ->
  honest_pool w ->
  let P := md_processed_pr_numbers md in
  let st' := state_of (process_repository w (Some md) fuel) in
  Forall (fun f => Forall (fun d => number d ∉ P) f.2) (csv_files st')
  /\ Forall (fun d => number d ∉ P) (df_rows st')
  /\ Forall (fun n => n < C /\ n ∉ P) (submitted st')
  /\ (forall pages c max_prs pr,
        pr ∈ fetch_pr_list_descending pages (Some c) max_prs ->
        pr_number pr < c).
Proof.
  intros Hc Hpool P st'.
  assert (Hres : resumed C P st').
  { subst st'. unfold process_repository.
    destruct (_ <=? 0); [by apply initial_state_resumed|].
    apply run_resumed; [done|]. by apply initial_state_resumed. }
  destruct Hres as (_ & _ & Hrows & Hfiles & Hsub). repeat split.
  - eapply Forall_impl; [exact Hfiles|]. intros f Hf.
    eapply Forall_impl; [exact Hf|]. by intros d [_ Hd].
  - eapply Forall_impl; [exact Hrows|]. by intros d [_ Hd].
  - exact Hsub.
  - intros pages c max_prs pr Hpr. by apply fetch_below_cursor in Hpr as [? _].
Qed.

Lemma C5_witness :
  md_lowest_pr_number checkpoint_resume = Some 9
  /\ honest_pool world_resume
  /\ Forall (fun n => n < 9 /\ n ∉ [6])
       (submitted
          (state_of (process_repository world_resume
                       (Some checkpoint_resume) 5))).
Proof.
  split; [reflexivity|]. split; [apply orderly_pool_honest|].
  apply (C5_resumed_run_skips_processed_and_above_cursor
           world_resume checkpoint_resume 9 5);
    [reflexivity|apply orderly_pool_honest].
Defined.

End ResumptionClaim.

(** * Further properties of the code *)

(** ** The visitor's counters *)

Section VisitorCounts.

Import FeatureExtraction TreeCounts.







End VisitorCounts.

(** ** The heuristic line counts *)

Section BasicMetrics.

Import FeatureExtraction LineKinds.

(** A blank line is never taken for a comment. *)
Lemma blank_is_not_comment l :
  is_blank_line l = true -> is_comment_line l = false.
Proof.
  unfold is_blank_line, is_comment_line.
  destruct (Text.strip l); [reflexivity|discriminate].
Qed.

Lemma count_if_nonneg {A} (f : A -> bool) (l : list A) : 0 <= count_if f l.
Proof. unfold count_if. lia. Qed.

Lemma count_if_cons {A} (f : A -> bool) x (l : list A) :
  count_if f (x :: l) = (if f x then 1 else 0) + count_if f l.
Proof.
  unfold count_if. rewrite filter_cons.
  destruct (decide (f x = true)) as [->|Hf].
  - simpl length. lia.
  - by destruct (f x).
Qed.

Lemma line_kinds_partition (lines : list (list ascii)) :
  Z.of_nat (length lines)
  = count_if is_source_line lines + count_if is_blank_line lines
    + count_if is_comment_line lines.
Proof.
  induction lines as [|l lines IH]; [reflexivity|].
  rewrite !count_if_cons. simpl length. rewrite Nat2Z.inj_succ, IH.
  unfold is_source_line.
  pose proof (blank_is_not_comment l).
  destruct (is_blank_line l), (is_comment_line l); simpl; try lia.
Qed.

(** X3. On the heuristic path every line is of exactly one kind: [loc]
    is the sum of [sloc], [blank] and [comments], where [sloc] counts the
    lines that are neither blank nor comments; none of the four counts is
    negative, so none of the three exceeds [loc]. *)
Theorem X3_basic_line_counts_partition (content : string) :
  exists loc sloc blank comments,
    compute_basic_metrics content !! "loc" = Some (VInt loc)
    /\ compute_basic_metrics content !! "sloc" = Some (VInt sloc)
    /\ compute_basic_metrics content !! "blank" = Some (VInt blank)
    /\ compute_basic_metrics content !! "comments" = Some (VInt comments)
    /\ loc = sloc + blank + comments
    /\ sloc = count_if is_source_line (Text.splitlines content)
    /\ 0 <= sloc /\ 0 <= blank /\ 0 <= comments.
Proof.
  pose proof (line_kinds_partition (Text.splitlines content)) as Hp.
  pose proof (count_if_nonneg is_source_line (Text.splitlines content)).
  pose proof (count_if_nonneg is_blank_line (Text.splitlines content)).
  pose proof (count_if_nonneg is_comment_line (Text.splitlines content)).
  eexists _, _, _, _. unfold compute_basic_metrics.
  repeat first [ rewrite lookup_insert_eq
               | rewrite lookup_insert_ne by done ].
  repeat split; try reflexivity; lia.
Qed.

End BasicMetrics.

(** ** Means lie between the extremes *)

Section MeanBounds.

Import FeatureExtraction Spec.

Lemma inject_Z_length_cons (q : Q) (l : list Q) :
  (inject_Z (Z.of_nat (length (q :: l)))
   == inject_Z (Z.of_nat (length l)) + 1)%Q.
Proof.
  simpl length. rewrite Nat2Z.inj_succ. unfold Z.succ.
  by rewrite inject_Z_plus.
Qed.

Lemma sumQ_upper (M : Q) (l : list Q) :
  Forall (fun x => (x <= M)%Q) l ->
  (sumQ l <= M * inject_Z (Z.of_nat (length l)))%Q.
Proof.
  induction 1 as [|x l Hx _ IH].
  - simpl. rewrite Qmult_0_r. apply Qle_refl.
  - rewrite inject_Z_length_cons. simpl sumQ.
    setoid_replace (M * (inject_Z (Z.of_nat (length l)) + 1))%Q
      with (M + M * inject_Z (Z.of_nat (length l)))%Q
      using relation Qeq by ring.
    by apply Qplus_le_compat.
Qed.


Lemma length_pos_Q {A} (x : A) (l : list A) :
  (0 < inject_Z (Z.of_nat (length (x :: l))))%Q.
Proof.
  rewrite <- (Zlt_Qlt 0). simpl length. lia.
Qed.

(** The mean of a non-empty sample is at most any upper bound of the
    sample and at least any lower bound. *)
Lemma np_mean_upper (M : Q) (x : Q) (l : list Q) :
  Forall (fun y => (y <= M)%Q) (x :: l) -> (np_mean (x :: l) <= M)%Q.
Proof.
  intros Hall. unfold np_mean.
  apply Qle_shift_div_r; [apply length_pos_Q|]. by apply sumQ_upper.
Qed.




(** X5. On the Python path the two complexity fields are present
    together or absent together: both are [None] when the complexity
    visit raises or finds no block; otherwise [max_cc] is the complexity
    of one of the blocks, no block exceeds it, and [avg_cc] is at most
    [max_cc]. *)
Theorem X5_complexity_fields_together
    (ast_parse : string -> option node)
    (raw_analyze : string -> option raw_module)
    (cc_visit : string -> option (list Z))
    (file_content : string) :
  let m := compute_python_metrics ast_parse raw_analyze cc_visit
             file_content in
  (m !! "avg_cc" = Some VNone /\ m !! "max_cc" = Some VNone
   /\ (cc_visit file_content = None \/ cc_visit file_content = Some []))
  \/ exists cc_list avg top,
       cc_visit file_content = Some cc_list
       /\ m !! "avg_cc" = Some (VFloat avg)
       /\ m !! "max_cc" = Some (VFloat (inject_Z top))
       /\ top ∈ cc_list
       /\ Forall (fun c => c <= top) cc_list
       /\ (avg <= inject_Z top)%Q.
Proof.
  intros m. subst m. rewrite python_metrics_unfold.
  repeat first [ rewrite lookup_insert_eq
               | rewrite lookup_insert_ne by done ].
  unfold cc_metrics.
  destruct (cc_visit file_content) as [[|c cs]|]; [left; auto| |left; auto].
  right. cbn [fst snd].
  destruct (py_max_spec (map VInt cs) (VInt c)) as [Hin Hall].
  change (VInt c :: map VInt cs) with (VInt <$> (c :: cs)) in Hin, Hall.
  apply list_elem_of_fmap in Hin as (top & Htop & Hin).
  rewrite Forall_forall in Hall.
  assert (Hle : forall x, x ∈ c :: cs -> x <= top).
  { intros x Hx. rewrite Zle_Qle.
    specialize (Hall (VInt x) (list_elem_of_fmap_2 VInt _ _ Hx)).
    by rewrite Htop in Hall. }
  exists (c :: cs), (Qred (np_mean (map to_Q (map VInt (c :: cs))))), top.
  repeat split; try done.
  - rewrite Htop. unfold py_float. simpl to_Q. do 2 f_equal.
    apply Qred_identity. simpl. apply Z.gcd_1_r.
  - by apply Forall_forall.
  - rewrite Qred_correct.
    apply (np_mean_upper (inject_Z top) (to_Q (VInt c))
             (map to_Q (map VInt cs))).
    change (Forall (fun y => (y <= inject_Z top)%Q)
                   (to_Q <$> (VInt <$> (c :: cs)))).
    apply Forall_forall. intros y Hy.
    apply list_elem_of_fmap in Hy as (v & -> & Hv).
    apply list_elem_of_fmap in Hv as (x & -> & Hx).
    simpl. rewrite <- Zle_Qle. by apply Hle.
Qed.

End MeanBounds.

(** ** The shape of the aggregate record *)

Section AggregatorShape.

Import FeatureExtraction Spec AggregateShape.

Lemma aggregate_key_dom fs agg key :
  dom (aggregate_key fs agg key)
  = list_to_set (aggregate_names key) ∪ dom agg.
Proof.
  unfold aggregate_key, aggregate_names.
  destruct (values_of key fs); rewrite !dom_insert_L; set_solver.
Qed.

Lemma fold_aggregate_dom fs ks : forall agg,
  dom (fold_left (aggregate_key fs) ks agg)
  = list_to_set (ks ≫= aggregate_names) ∪ dom agg.
Proof.
  induction ks as [|k ks IH]; intros agg; [simpl; set_solver|].
  rewrite bind_cons, list_to_set_app_L. simpl fold_left.
  rewrite IH, aggregate_key_dom. set_solver.
Qed.

(** X6. Whatever the files are, the aggregate record has the same 42
    entries: a minimum, an average and a maximum for each of the fourteen
    metric keys, and nothing else. *)
Theorem X6_aggregate_has_fixed_shape
    (pr_files_metrics : option (list (gmap string pyval))) :
  dom (aggregate_file_metrics pr_files_metrics)
  = list_to_set (keys ≫= aggregate_names)
  /\ size (aggregate_file_metrics pr_files_metrics) = 42%nat
  /\ (forall name,
        is_Some (aggregate_file_metrics pr_files_metrics !! name)
        <-> exists key, key ∈ keys /\ name ∈ aggregate_names key).
Proof.
  assert (Hdom : dom (aggregate_file_metrics pr_files_metrics)
                 = list_to_set (keys ≫= aggregate_names)).
  { unfold aggregate_file_metrics. rewrite fold_aggregate_dom.
    rewrite dom_empty_L. set_solver. }
  split; [exact Hdom|]. split.
  - rewrite <- (size_dom (D:=gset string)), Hdom.
    rewrite size_list_to_set; [reflexivity|].
    apply (bool_decide_unpack _). vm_compute. exact I.
  - intros name. rewrite <- elem_of_dom, Hdom, elem_of_list_to_set.
    rewrite list_elem_of_bind. split.
    + intros (key & Hname & Hkey). by exists key.
    + intros (key & Hkey & Hname). by exists key.
Qed.

Lemma values_of_skip key fs1 f fs2 :
  dict_get f key = VNone ->
  values_of key (fs1 ++ f :: fs2) = values_of key (fs1 ++ fs2).
Proof.
  intros Hf. unfold values_of.
  rewrite !map_app, !filter_app. simpl map. rewrite filter_cons, Hf.
  by rewrite decide_False.
Qed.

Lemma fold_aggregate_ext fs fs' ks : forall agg,
  (forall key, key ∈ ks -> values_of key fs = values_of key fs') ->
  fold_left (aggregate_key fs) ks agg = fold_left (aggregate_key fs') ks agg.
Proof.
  induction ks as [|k ks IH]; intros agg Hks; [reflexivity|].
  simpl. rewrite IH by (intros key Hkey; apply Hks; by right).
  f_equal. unfold aggregate_key. rewrite (Hks k) by left. reflexivity.
Qed.

(** X7. A file record without a present value for any metric key (a file
    whose content was empty or could not be fetched) changes nothing:
    the aggregates are those of the list without it, wherever it stands
    in the list. *)
Theorem X7_file_without_metrics_changes_nothing
    (fs1 fs2 : list (gmap string pyval)) (f : gmap string pyval) :
  (forall key, key ∈ keys -> dict_get f key = VNone) ->
  aggregate_file_metrics (Some (fs1 ++ f :: fs2))
  = aggregate_file_metrics (Some (fs1 ++ fs2)).
Proof.
  intros Hf. unfold aggregate_file_metrics. simpl default.
  apply fold_aggregate_ext. intros key Hkey.
  apply values_of_skip. by apply Hf.
Qed.

Lemma file_entry_has_no_metric (f : string * option string) key :
  key ∈ keys -> dict_get (GithubUtils.file_entry f) key = VNone.
Proof.
  intros Hkey. unfold dict_get, GithubUtils.file_entry.
  unfold keys in Hkey.
  repeat (apply elem_of_cons in Hkey as [->|Hkey]);
    [by repeat (rewrite lookup_insert_ne by done) ..
    | by apply elem_of_nil in Hkey].
Qed.

Lemma X7_witness :
  (forall key, key ∈ keys ->
     dict_get (GithubUtils.file_entry ("logo.png", None)) key = VNone)
  /\ aggregate_file_metrics
       (Some ([] ++ GithubUtils.file_entry ("logo.png", None) :: files_2_4_6))
     = aggregate_file_metrics (Some ([] ++ files_2_4_6)).
Proof.
  split; [intros key; apply file_entry_has_no_metric|].
  apply (X7_file_without_metrics_changes_nothing [] files_2_4_6
           (GithubUtils.file_entry ("logo.png", None))).
  intros key. apply file_entry_has_no_metric.
Defined.

End AggregatorShape.

(** ** The per-file step of the assembler *)

Section PerFileStep.

Import FeatureExtraction Spec AggregateShape.

Variable ast_parse : string -> option node.
Variable raw_analyze : string -> option raw_module.
Variable cc_visit : string -> option (list Z).

Local Abbreviation file_metrics' :=
  (file_metrics ast_parse raw_analyze cc_visit).
Local Abbreviation update_file' :=
  (update_file ast_parse raw_analyze cc_visit).

(** Neither extractor writes an entry named like a field of the file
    record. *)
Lemma file_metrics_leaves_identity fname content key :
  key = "filename" \/ key = "content" ->
  file_metrics' fname content !! key = None.
Proof.
  intros Hkey. unfold file_metrics.
  destruct (Text.endswith _ _).
  - rewrite python_metrics_unfold. unfold ast_metrics.
    destruct (ast_parse content); [|rewrite all_None_structural];
      destruct Hkey as [-> | ->];
      by repeat first [ rewrite lookup_insert_ne by done
                      | rewrite lookup_empty ].
  - unfold compute_basic_metrics.
    destruct Hkey as [-> | ->];
      by repeat first [ rewrite lookup_insert_ne by done
                      | rewrite lookup_empty ].
Qed.

Lemma update_file_lookup (f : gmap string pyval) key :
  get_text f "content" <> "" ->
  update_file' f !! key
  = match file_metrics' (get_text f "filename")
            (get_text f "content") !! key with
    | Some v => Some v
    | None => f !! key
    end.
Proof.
  intros Hc. unfold update_file.
  destruct (get_text f "content") as [|c content] eqn:Hcontent; [done|].
  rewrite lookup_union.
  by destruct (file_metrics' _ _ !! key) as [v|], (f !! key).
Qed.

(** X8. The per-file step keeps the name and the content of every file
    record.  A record whose content is missing, [None] or empty is
    returned as it is.  For a record with content, every entry the
    extractor computes replaces what the record held under that key, and
    the other entries of the record stay. *)
Theorem X8_update_file_keeps_identity_and_overrides
    (f : gmap string pyval) :
  update_file' f !! "filename" = f !! "filename"
  /\ update_file' f !! "content" = f !! "content"
  /\ (get_text f "content" = "" -> update_file' f = f)
  /\ (get_text f "content" <> "" ->
      forall key,
        update_file' f !! key
        = match file_metrics' (get_text f "filename")
                  (get_text f "content") !! key with
          | Some v => Some v
          | None => f !! key
          end).
Proof.
  assert (Hover : get_text f "content" <> "" ->
    forall key,
      update_file' f !! key
      = match file_metrics' (get_text f "filename")
                (get_text f "content") !! key with
        | Some v => Some v
        | None => f !! key
        end)
    by (intros Hc key; by apply update_file_lookup).
  assert (Hid : forall key, key = "filename" \/ key = "content" ->
                            update_file' f !! key = f !! key).
  { intros key Hkey.
    destruct (decide (get_text f "content" = "")) as [He|Hne].
    - unfold update_file. by rewrite He.
    - rewrite (Hover Hne key).
      by rewrite file_metrics_leaves_identity. }
  split; [apply Hid; by left|]. split; [apply Hid; by right|].
  split; [|exact Hover].
  intros He. unfold update_file. by rewrite He.
Qed.

Lemma get_text_file_entry (f : string * option string) :
  get_text (GithubUtils.file_entry f) "filename" = f.1
  /\ get_text (GithubUtils.file_entry f) "content" = default "" f.2.
Proof.
  unfold get_text, GithubUtils.file_entry. split.
  - by rewrite lookup_insert_ne, lookup_insert_eq.
  - rewrite lookup_insert_eq. by destruct f.2.
Qed.

Lemma basic_metrics_python_only content key :
  key ∈ python_only_keys ->
  dict_get (compute_basic_metrics content) key = VNone.
Proof.
  intros Hkey. unfold python_only_keys, structural_keys in Hkey.
  simpl app in Hkey. unfold dict_get, compute_basic_metrics.
  repeat (apply elem_of_cons in Hkey as [->|Hkey]);
    [by repeat first [ rewrite lookup_insert_eq
                     | rewrite lookup_insert_ne by done
                     | rewrite lookup_empty ] ..
    | by apply elem_of_nil in Hkey].
Qed.

Lemma entry_python_only (f : string * option string) key :
  key ∈ python_only_keys ->
  dict_get (GithubUtils.file_entry f) key = VNone.
Proof.
  intros Hkey. unfold python_only_keys, structural_keys in Hkey.
  simpl app in Hkey. unfold dict_get, GithubUtils.file_entry.
  repeat (apply elem_of_cons in Hkey as [->|Hkey]);
    [by repeat first [ rewrite lookup_insert_ne by done
                     | rewrite lookup_empty ] ..
    | by apply elem_of_nil in Hkey].
Qed.

Lemma python_only_are_keys key : key ∈ python_only_keys -> key ∈ keys.
Proof.
  unfold python_only_keys, structural_keys, keys. simpl app. intros Hkey.
  repeat (apply elem_of_cons in Hkey as [->|Hkey]);
    [set_solver .. | by apply elem_of_nil in Hkey].
Qed.

(** X9. For a pull request none of whose files has the [.py] suffix, the
    assembler's aggregates of the structural counts, of the two
    complexity scores, of [lloc] and of [multi_comments] are all [None],
    whatever the files hold. *)
Theorem X9_no_python_file_no_structural_aggregate
    (files : list (string * option string)) :
  Forall (fun f => Text.endswith (list_ascii_of_string f.1) dot_py = false)
         files ->
  let records := map (fun f => update_file' (GithubUtils.file_entry f))
                     files in
  Forall (fun key =>
            Forall (fun name =>
                      aggregate_file_metrics (Some records) !! name
                      = Some VNone)
                   (aggregate_names key))
         python_only_keys.
Proof.
  intros Hfiles records. apply Forall_forall. intros key Hkey.
  assert (Hvalues : values_of key records = []).
  { unfold values_of. subst records. rewrite map_map.
    induction Hfiles as [|f files Hf _ IH]; [reflexivity|].
    simpl map. rewrite filter_cons, IH.
    rewrite decide_False; [reflexivity|].
    assert (dict_get (update_file' (GithubUtils.file_entry f)) key = VNone)
      as ->; [|done].
    destruct (get_text_file_entry f) as [Hname Hcontent].
    destruct (decide (get_text (GithubUtils.file_entry f) "content" = ""))
      as [He|Hne].
    - unfold update_file. rewrite He. by apply entry_python_only.
    - unfold dict_get.
      rewrite (update_file_lookup _ key Hne), Hname.
      unfold file_metrics. rewrite Hf.
      pose proof (basic_metrics_python_only
                    (get_text (GithubUtils.file_entry f) "content") key Hkey)
        as Hb.
      pose proof (entry_python_only f key Hkey) as He.
      unfold dict_get in Hb, He.
      destruct (compute_basic_metrics _ !! key) as [v|]; [|exact He].
      exact Hb. }
  destruct (fold_aggregate_lookup records keys ∅ key
              (python_only_are_keys key Hkey)) as (Hmin & Havg & Hmax).
  rewrite Hvalues in Hmin, Havg, Hmax.
  unfold aggregate_names. repeat constructor; assumption.
Qed.

End PerFileStep.

Lemma X9_witness :
  let files := [("README.md", Some "# title"); ("logo.png", None)] in
  Forall (fun f => Text.endswith (list_ascii_of_string f.1)
                     FeatureExtraction.dot_py = false) files
  /\ Forall (fun key =>
       Forall (fun name =>
                 FeatureExtraction.aggregate_file_metrics
                   (Some (map (fun f =>
                      FeatureExtraction.update_file
                        (fun _ => None) (fun _ => None) (fun _ => None)
                        (GithubUtils.file_entry f)) files)) !! name
                 = Some VNone)
              (AggregateShape.aggregate_names key))
       AggregateShape.python_only_keys.
Proof.
  assert (H : Forall
    (fun f : string * option string =>
       Text.endswith (list_ascii_of_string f.1) FeatureExtraction.dot_py
       = false)
    [("README.md", Some "# title"); ("logo.png", None)])
    by (repeat constructor).
  split; [exact H|].
  exact (X9_no_python_file_no_structural_aggregate
           (fun _ => None) (fun _ => None) (fun _ => None) _ H).
Defined.

(** ** Uniform columns *)

Section ColumnTheorems.

Import Columns.

Variable V : Type.
Variable none : V.

Lemma fill_missing_lookup (ks : list string) (pr : gmap string V) :
  forall k,
    fill_missing V none ks pr !! k
    = match pr !! k with
      | Some v => Some v
      | None => if decide (k ∈ ks) then Some none else None
      end.
Proof.
  induction ks as [|k0 ks IH]; intros k; simpl.
  - by destruct (pr !! k).
  - set (m := fill_missing V none ks pr) in *.
    destruct (decide (k = k0)) as [->|Hne].
    + rewrite (decide_True (P := k0 ∈ k0 :: ks)) by left.
      pose proof (IH k0) as Hk0.
      destruct (m !! k0) as [v0|] eqn:Hm.
      * rewrite Hm. destruct (pr !! k0); [done|].
        by destruct (decide (k0 ∈ ks)).
      * rewrite lookup_insert_eq. by destruct (pr !! k0).
    + assert (Hm : match m !! k0 with
                   | Some _ => m
                   | None => <[k0 := none]> m
                   end !! k = m !! k).
      { destruct (m !! k0); [done|]. by rewrite lookup_insert_ne. }
      rewrite Hm, IH. destruct (pr !! k); [done|].
      destruct (decide (k ∈ ks)) as [Hin|Hnin].
      * by rewrite decide_True by (by right).
      * rewrite decide_False; [done|].
        intros [?|?]%elem_of_cons; done.
Qed.

Lemma elem_of_all_keys (df_rows : list (gmap string V)) k :
  k ∈ all_keys V df_rows <-> exists pr, pr ∈ df_rows /\ is_Some (pr !! k).
Proof.
  unfold all_keys. rewrite elem_of_union_list. split.
  - intros (X & HX & Hk). apply list_elem_of_fmap in HX as (pr & -> & Hpr).
    exists pr. split; [done|]. by apply elem_of_dom.
  - intros (pr & Hpr & Hk). exists (dom pr). split.
    + by apply list_elem_of_fmap_2.
    + by apply elem_of_dom.
Qed.

(** X10. After the columns are made consistent, the batch has as many
    rows as before, every row has exactly the keys used by some row of
    the batch, every value a row held is unchanged, and every key a row
    lacked holds [None]. *)
Theorem X10_consistent_columns (df_rows : list (gmap string V)) :
  length (ensure_consistent_columns V none df_rows) = length df_rows
  /\ (forall i pr,
        df_rows !! i = Some pr ->
        exists pr',
          ensure_consistent_columns V none df_rows !! i = Some pr'
          /\ dom pr' = all_keys V df_rows
          /\ (forall k v, pr !! k = Some v -> pr' !! k = Some v)
          /\ (forall k, pr !! k = None -> k ∈ all_keys V df_rows ->
                        pr' !! k = Some none))
  /\ (forall k, k ∈ all_keys V df_rows
                <-> exists pr, pr ∈ df_rows /\ is_Some (pr !! k)).
Proof.
  split; [apply length_map|]. split; [|apply elem_of_all_keys].
  intros i pr Hi.
  exists (fill_missing V none (elements (all_keys V df_rows)) pr).
  split.
  { unfold ensure_consistent_columns.
    change (map ?f df_rows) with (f <$> df_rows).
    by rewrite list_lookup_fmap, Hi. }
  split; [|split].
  - apply set_eq. intros k. rewrite elem_of_dom, fill_missing_lookup.
    destruct (pr !! k) as [v|] eqn:Hk.
    + split; [|by eauto]. intros _. apply elem_of_all_keys.
      exists pr. split; [by eapply list_elem_of_lookup_2|by rewrite Hk].
    + destruct (decide (k ∈ elements (all_keys V df_rows))) as [Hin|Hnin].
      * split; [|by eauto]. intros _. by apply elem_of_elements.
      * split; [by intros [? ?]|]. intros Hin.
        by apply elem_of_elements in Hin.
  - intros k v Hk. by rewrite fill_missing_lookup, Hk.
  - intros k Hk Hin. rewrite fill_missing_lookup, Hk.
    by rewrite decide_True by (by apply elem_of_elements).
Qed.

End ColumnTheorems.

(** ** The listings *)

Section ListingTheorems.

Import Main Listing.

Lemma take_take_app {A} (n : nat) (l1 l2 : list A) :
  take n (take n l1 ++ l2) = take n (l1 ++ l2).
Proof.
  destruct (decide (n <= length l1)%nat) as [Hle|Hgt].
  - rewrite !take_app_le by (rewrite ?length_take; lia).
    by rewrite take_take, Nat.min_id.
  - by rewrite (take_ge l1) by lia.
Qed.

Lemma scan_page_take m max_prs items : forall all_prs,
  len all_prs < max_prs ->
  scan_page m max_prs items all_prs
  = take (Z.to_nat max_prs) (all_prs ++ filter (listed m) items).
Proof.
  unfold len.
  induction items as [|pr items IH]; intros all_prs Hlt; simpl.
  - rewrite app_nil_r, take_ge; [done|lia].
  - rewrite filter_cons.
    destruct (decide (listed m pr)) as [Hs|Hs]; unfold listed in Hs.
    2:{ apply not_false_is_true in Hs. rewrite Hs. by apply IH. }
    rewrite Hs.
    + destruct (max_prs <=? len (all_prs ++ [pr])) eqn:Hmax.
      * apply Z.leb_le in Hmax. unfold len in Hmax.
        rewrite length_app in Hmax. simpl in Hmax.
        rewrite (cons_middle pr all_prs (filter (listed m) items)), app_assoc.
        rewrite take_app_le by (rewrite length_app; simpl; lia).
        rewrite take_ge; [done|rewrite length_app; simpl; lia].
      * apply Z.leb_gt in Hmax. rewrite IH by exact Hmax.
        by rewrite (cons_middle pr all_prs (filter (listed m) items)),
          app_assoc.
Qed.

Lemma scan_pages_take m max_prs pages : forall all_prs,
  len all_prs <= max_prs ->
  scan_pages m max_prs pages all_prs
  = take (Z.to_nat max_prs)
         (all_prs ++ filter (listed m) (concat (until_empty_page pages))).
Proof.
  unfold len.
  induction pages as [|page pages IH]; intros all_prs Hle; simpl.
  - rewrite app_nil_r, take_ge by lia.
    by destruct (len all_prs <? max_prs).
  - destruct (len all_prs <? max_prs) eqn:Hlt.
    + apply Z.ltb_lt in Hlt. destruct page as [|pr page].
      * simpl. rewrite app_nil_r, take_ge; [done|unfold len in Hlt; lia].
      * rewrite IH.
        -- rewrite scan_page_take by exact Hlt.
           rewrite take_take_app.
           change (until_empty_page ((pr :: page) :: pages))
             with ((pr :: page) :: until_empty_page pages).
           by rewrite concat_cons, filter_app, app_assoc.
        -- rewrite scan_page_take by exact Hlt.
           rewrite length_take. lia.
    + apply Z.ltb_ge in Hlt. unfold len in Hlt.
      rewrite take_app_le by lia. rewrite take_ge; [done|lia].
Qed.

Lemma fetch_descending_take
    (pages : list (list pr_obj)) (max_pr_number : option Z) (max_prs : Z) :
  fetch_pr_list_descending pages max_pr_number max_prs
  = take (Z.to_nat max_prs)
         (filter (listed max_pr_number) (concat (until_empty_page pages))).
Proof.
  unfold fetch_pr_list_descending.
  destruct (decide (0 <= max_prs)) as [Hnn|Hneg].
  - by rewrite scan_pages_take by (unfold len; simpl; lia).
  - replace (Z.to_nat max_prs) with 0%nat by lia. rewrite take_0.
    destruct pages; simpl;
      destruct (len [] <? max_prs) eqn:Hlt; try done;
      apply Z.ltb_lt in Hlt; unfold len in Hlt; simpl in Hlt; lia.
Qed.

(** X11. The listing used by the loop returns, in the order of the
    service, the first [max_prs] pull requests that are unmerged and
    below the cursor, taken from the pages before the first empty page;
    it returns all of them when there are fewer. *)
Theorem X11_listing_is_first_unmerged_below_cursor
    (pages : list (list pr_obj)) (max_pr_number : option Z) (max_prs : Z) :
  fetch_pr_list_descending pages max_pr_number max_prs
  = take (Z.to_nat max_prs)
         (filter (listed max_pr_number) (concat (until_empty_page pages)))
  /\ (length (fetch_pr_list_descending pages max_pr_number max_prs)
      <= Z.to_nat max_prs)%nat.
Proof.
  pose proof (fetch_descending_take pages max_pr_number max_prs) as H.
  split; [exact H|]. rewrite H, length_take. lia.
Qed.

End ListingTheorems.

Section SkippingListing.

Import Main Listing.

Lemma scan_start_page_done k max_prs items : forall skipped all_prs,
  k <= skipped ->
  scan_start_page k max_prs items skipped all_prs
  = scan_page None max_prs items all_prs.
Proof.
  induction items as [|pr items IH]; intros skipped all_prs Hk; simpl;
    [done|].
  destruct (skipped <? k) eqn:Hlt; [apply Z.ltb_lt in Hlt; lia|].
  destruct (bool_decide (is_Some (pr_merged_at pr))); [by apply IH|].
  destruct (max_prs <=? len (all_prs ++ [pr])); [done|by apply IH].
Qed.

Lemma scan_start_page_take k max_prs items : forall skipped all_prs,
  len all_prs < max_prs -> 0 <= skipped ->
  scan_start_page k max_prs items skipped all_prs
  = take (Z.to_nat max_prs)
         (all_prs
          ++ filter (listed None) (drop (Z.to_nat (k - skipped)) items)).
Proof.
  induction items as [|pr items IH]; intros skipped all_prs Hlen Hs.
  - simpl. rewrite drop_nil, app_nil_r, take_ge; [done|unfold len in Hlen; lia].
  - destruct (decide (skipped < k)) as [Hlt|Hge].
    + simpl. apply Z.ltb_lt in Hlt as Hlt'. rewrite Hlt'.
      rewrite IH by lia.
      replace (Z.to_nat (k - skipped))
        with (S (Z.to_nat (k - (skipped + 1)))) by lia.
      done.
    + rewrite scan_start_page_done by lia.
      replace (Z.to_nat (k - skipped)) with 0%nat by lia.
      rewrite drop_0. by apply scan_page_take.
Qed.

(** X12. [fetch_pr_list] starts at page [skip // 100], passes over the
    first [skip % 100] entries of that page, merged or not, and returns,
    in the order of the service, the first [max_prs] unmerged pull
    requests among the rest of that page and the pages after it, up to
    the first empty page. *)
Theorem X12_fetch_pr_list_skips_then_takes
    (pages : list (list pr_obj)) (max_prs skip : Z) :
  0 <= skip ->
  fetch_pr_list pages max_prs skip
  = match until_empty_page (drop (Z.to_nat (skip / 100)) pages) with
    | [] => []
    | first :: later =>
        take (Z.to_nat max_prs)
             (filter (listed None)
                     (drop (Z.to_nat (skip mod 100)) first ++ concat later))
    end.
Proof.
  intros Hskip. unfold fetch_pr_list, items_per_page.
  destruct (0 <? max_prs) eqn:Hmax.
  - apply Z.ltb_lt in Hmax.
    destruct (drop (Z.to_nat (skip / 100)) pages) as [|[|pr page] later];
      [done..|].
    change (until_empty_page ((pr :: page) :: later))
      with ((pr :: page) :: until_empty_page later).
    rewrite scan_start_page_take by (unfold len; simpl; lia).
    rewrite scan_pages_take by (unfold len; rewrite length_take; lia).
    rewrite Z.sub_0_r, take_take_app. simpl app.
    by rewrite filter_app.
  - apply Z.ltb_ge in Hmax.
    replace (Z.to_nat max_prs) with 0%nat by lia.
    by destruct (until_empty_page _).
Qed.

Lemma X12_witness :
  0 <= 1
  /\ fetch_pr_list
       [[mkPrObj 9 None; mkPrObj 8 (Some "2024-01-01"); mkPrObj 7 None];
        [mkPrObj 6 None]; []; [mkPrObj 5 None]] 2 1
     = [mkPrObj 7 None; mkPrObj 6 None].
Proof.
  split; [lia|].
  rewrite (X12_fetch_pr_list_skips_then_takes _ 2 1); [|lia].
  reflexivity.
Defined.

End SkippingListing.

(** ** The rotating clients and the retrying call *)

Section ClientTheorems.

Import GithubClient.

Variable client : Type.
Variable TOKENS : list client.

(** X13. With a non-empty pool and an index inside it, [k] calls of
    [_get_client] in a row never fail: the [j]-th of them hands out the
    client [j] places further round the pool, and the index left is
    inside the pool again. *)
Theorem X13_clients_rotate (k : nat) (token_index : nat) :
  (token_index < length TOKENS)%nat ->
  (forall j, (j < k)%nat ->
     (get_clients client TOKENS k token_index).1 !! j
     = Some (TOKENS !! ((token_index + j) mod length TOKENS)%nat)
     /\ is_Some (TOKENS !! ((token_index + j) mod length TOKENS)%nat))
  /\ (get_clients client TOKENS k token_index).2
     = ((token_index + k) mod length TOKENS)%nat
  /\ length (get_clients client TOKENS k token_index).1 = k.
Proof.
  revert token_index.
  induction k as [|k IH]; intros i Hi.
  - simpl. split; [intros j Hj; lia|].
    split; [|done]. by rewrite Nat.add_0_r, Nat.mod_small.
  - simpl. destruct (get_clients client TOKENS k _) as [cs final] eqn:Hg.
    assert (Hnext : ((i + 1) mod length TOKENS < length TOKENS)%nat)
      by (apply Nat.mod_upper_bound; lia).
    destruct (IH _ Hnext) as (Hj & Hfinal & Hlen).
    rewrite Hg in Hj, Hfinal, Hlen. simpl in *.
    split; [|split].
    + intros [|j] Hlt.
      * simpl. rewrite Nat.add_0_r, Nat.mod_small by done.
        split; [done|]. by apply lookup_lt_is_Some.
      * simpl. destruct (Hj j) as [-> Hsome]; [lia|].
        rewrite Nat.Div0.add_mod_idemp_l in Hsome |- *.
        by replace (i + 1 + j)%nat with (i + S j)%nat in * by lia.
    + rewrite Hfinal, Nat.Div0.add_mod_idemp_l. f_equal. lia.
    + by rewrite Hlen.
Qed.

End ClientTheorems.

Lemma X13_witness :
  (1 < length [10; 20; 30])%nat
  /\ (GithubClient.get_clients Z [10; 20; 30] 4 1).2
     = ((1 + 4) mod length [10; 20; 30])%nat.
Proof.
  split; [simpl; lia|].
  apply (X13_clients_rotate Z [10; 20; 30] 4 1). simpl. lia.
Defined.

Section SafeCallTheorems.

Import GithubClient.

Variable A : Type.
Variable now : nat -> Z.
Variable n_tokens : nat.

Local Abbreviation call := (_safe_github_call A now n_tokens).

Lemma retried_has_no_ending (a : attempt A) :
  retried A a = false -> is_Some (ending_of A a).
Proof. destruct a; simpl; try done; eauto. Qed.

(** X14. [_safe_github_call] ends at the first attempt that returns or
    that raises a [GithubException] other than a rate limit, with that
    value or that exception.  Every attempt before it is followed by a
    sleep of at least 2 seconds, and each attempt, the last one
    included, takes the next client of the pool.  While every attempt
    meets a rate limit or another exception, the call has not ended. *)
Theorem X14_safe_call_ends_at_first_decisive_attempt
    (pre post : list (attempt A)) (d : attempt A)
    (k index : nat) (slept : list Z) :
  forallb (retried A) pre = true ->
  retried A d = false ->
  let p := call (pre ++ d :: post) k index slept in
  ended A p = ending_of A d
  /\ is_Some (ended A p)
  /\ token_index A p = ((index + length pre + 1) mod n_tokens)%nat
  /\ (exists new, sleeps A p = new ++ slept
                  /\ length new = length pre
                  /\ Forall (fun s => 2 <= s) new)
  /\ ended A (call pre k index slept) = None.
Proof.
  revert k index slept.
  induction pre as [|a pre IH]; intros k index slept Hpre Hd p; subst p.
  - simpl app. simpl length. rewrite Nat.add_0_r.
    destruct d as [v|reset|status reset|]; simpl in Hd; try done;
      simpl; rewrite ?Hd; simpl;
      (split; [done|]); (split; [by eauto|]); (split; [done|]);
      (split; [|done]); by exists [].
  - simpl in Hpre. apply andb_true_iff in Hpre as [Ha Hpre].
    assert (Hstep : forall rest,
      exists s, 2 <= s
        /\ call (a :: rest) k index slept
           = call rest (S k) ((index + 1) mod n_tokens)%nat (s :: slept)).
    { intros rest. destruct a as [v|reset|status reset|]; simpl in *.
      - done.
      - exists (wait_for reset (now k)). split; [unfold wait_for; lia|done].
      - rewrite Ha. exists (wait_for reset (now k)).
        split; [unfold wait_for; lia|done].
      - exists 2. by split. }
    destruct (Hstep (pre ++ d :: post)) as (s & Hs & Heq).
    destruct (Hstep pre) as (s' & _ & Heq').
    change ((a :: pre) ++ d :: post) with (a :: (pre ++ d :: post)).
    rewrite Heq, Heq'.
    destruct (IH (S k) ((index + 1) mod n_tokens)%nat (s :: slept) Hpre Hd)
      as (H1 & H2 & H3 & (new & H4 & H5 & H6) & _).
    destruct (IH (S k) ((index + 1) mod n_tokens)%nat (s' :: slept) Hpre Hd)
      as (_ & _ & _ & _ & H7).
    split; [exact H1|]. split; [exact H2|]. split; [|split; [|exact H7]].
    + rewrite H3, <- Nat.add_assoc, Nat.Div0.add_mod_idemp_l. f_equal.
      simpl length. lia.
    + exists (new ++ [s]). rewrite H4, <- app_assoc. split; [done|].
      split; [rewrite length_app; simpl; lia|].
      apply Forall_app. split; [done|]. by repeat constructor.
Qed.

End SafeCallTheorems.

Lemma X14_witness :
  forallb (GithubClient.retried Z)
    [GithubClient.RateLimitExceeded 100; GithubClient.OtherError;
     GithubClient.GithubError 403 90] = true
  /\ GithubClient.retried Z (GithubClient.GithubError 404 0) = false
  /\ GithubClient.ended Z
       (GithubClient._safe_github_call Z (fun _ => 80) 1
          ([GithubClient.RateLimitExceeded 100; GithubClient.OtherError;
            GithubClient.GithubError 403 90]
           ++ GithubClient.GithubError 404 0 :: [GithubClient.Returns 1])
          0 0 [])
     = Some (GithubClient.Raises 404 0).
Proof.
  split; [reflexivity|]. split; [reflexivity|].
  apply (X14_safe_call_ends_at_first_decisive_attempt Z (fun _ => 80) 1
           [GithubClient.RateLimitExceeded 100; GithubClient.OtherError;
            GithubClient.GithubError 403 90]
           [GithubClient.Returns 1] (GithubClient.GithubError 404 0)
           0 0 []); reflexivity.
Defined.

(** ** More on the fetch loop *)

Section LoopProperties.

Import GithubUtils Main Spec RunProperties.

(** X15. The record [fetch_single_pr] builds counts as having Python
    files exactly when one of the changed files has a name ending in
    [.py], whether or not its content could be fetched; it does not when
    listing the files failed. *)
Theorem X15_has_python_files_of_fetched_record
    (pr : api_pull) (files : option (list (string * option string))) :
  _has_python_files (fetch_single_pr pr files)
  = match files with
    | Some fs =>
        existsb (fun f => Text.endswith (list_ascii_of_string f.1)
                            FeatureExtraction.dot_py) fs
    | None => false
    end.
Proof.
  assert (Hex : forall fs : list (string * option string),
    existsb (fun f => Text.endswith
                        (list_ascii_of_string
                           (FeatureExtraction.get_text f "filename"))
                        FeatureExtraction.dot_py)
            (map file_entry fs)
    = existsb (fun f => Text.endswith (list_ascii_of_string f.1)
                          FeatureExtraction.dot_py) fs).
  { induction fs as [|f fs IH]; [done|].
    simpl existsb. rewrite IH.
    by destruct (get_text_file_entry f) as [-> _]. }
  unfold _has_python_files, fetch_single_pr. cbn [files_metrics].
  destruct files as [fs|]; [|done].
  change (map file_entry <$> Some fs) with (Some (map file_entry fs)).
  rewrite <- Hex. by destruct fs.
Qed.











Lemma process_completed_below_target w l : forall st,
  processed_with_python st < TARGET_PRS_WITH_PYTHON ->
  processed_with_python (process_completed w st l) <= TARGET_PRS_WITH_PYTHON.
Proof.
  induction l as [|c l IH]; intros st Hst; [simpl; lia|].
  simpl. unfold on_completed. destruct c.2 as [d|]; [|by apply IH].
  destruct (_has_python_files d); cbn [negb]; [|by apply IH].
  match goal with
  | |- context [if SAVE_EVERY <=? ?x then ?a else ?b] =>
      set (st2 := if SAVE_EVERY <=? x then a else b)
  end.
  assert (H2 : processed_with_python st2 = processed_with_python st + 1).
  { subst st2. destruct (SAVE_EVERY <=? _); [|done].
    by destruct (save_batch_keeps w (record_row st c.1 d)) as (_ & -> & _). }
  destruct (TARGET_PRS_WITH_PYTHON <=? processed_with_python st2) eqn:Ht.
  - lia.
  - apply Z.leb_gt in Ht. by apply IH.
Qed.

Lemma save_remaining_counter w st :
  processed_with_python (save_remaining w st) = processed_with_python st.
Proof.
  unfold save_remaining. destruct (df_rows st); [done|].
  destruct (_ <? _); [|done].
  by destruct (save_batch_keeps w st) as (_ & -> & _).
Qed.

Lemma update_lowest_counter st :
  processed_with_python (update_lowest st) = processed_with_python st.
Proof.
  unfold update_lowest. destruct (df_rows st); [|done].
  destruct (py_min_Z _); [|done].
  destruct (lowest_pr_number st); [|done]. by destruct (_ <? _).
Qed.

Lemma iteration_below_target w i st :
  processed_with_python st <= TARGET_PRS_WITH_PYTHON ->
  processed_with_python (state_of (iteration w i st))
  <= TARGET_PRS_WITH_PYTHON.
Proof.
  intros Hst. unfold iteration, loop_body.
  destruct (_ <? _) eqn:Hlt; [|done]. apply Z.ltb_lt in Hlt.
  destruct (pr_objs_of w i st); [done|].
  destruct (new_pr_objs_of w i st) as [|n0 ns]; [done|].
  match goal with
  | |- context [process_completed w ?s ?l] =>
      pose proof (process_completed_below_target w l s Hlt) as H1;
      set (st1 := process_completed w s l) in *
  end.
  assert (H3 : processed_with_python (update_lowest (save_remaining w st1))
               = processed_with_python st1)
    by (by rewrite update_lowest_counter, save_remaining_counter).
  destruct (_ <=? _); simpl; lia.
Qed.

(** X17. The counter of the target never passes the target: a run that
    starts at or below it ends at or below it, and a repository whose
    checkpoint has reached the target is left as it is, without a single
    listing. *)
Theorem X17_counter_never_passes_target
    (w : world) (file : option metadata) (fuel : nat) :
  let st := initial_state file in
  (processed_with_python st <= TARGET_PRS_WITH_PYTHON ->
   processed_with_python (state_of (process_repository w file fuel))
   <= TARGET_PRS_WITH_PYTHON)
  /\ (TARGET_PRS_WITH_PYTHON <= processed_with_python st ->
      process_repository w file fuel = Exit st).
Proof.
  intros st. split.
  - intros Hst. unfold process_repository. fold st.
    destruct (_ <=? 0); [done|].
    generalize 0%nat. revert Hst. generalize st. clear st.
    induction fuel as [|fuel' IH]; intros st Hst i; [done|].
    simpl. pose proof (iteration_below_target w i st Hst) as Hit.
    destruct (iteration w i st) as [st'|st']; [by apply IH|done].
  - intros Hst. unfold process_repository. fold st.
    destruct (_ <=? 0) eqn:Hr; [done|]. apply Z.leb_gt in Hr. lia.
Qed.

End LoopProperties.

Section RunAccountTheorems.

Import GithubUtils Main Spec RunProperties RunAccounts Listing.

Lemma rows_in_app l1 l2 : rows_in (l1 ++ l2) = rows_in l1 + rows_in l2.
Proof.
  induction l1 as [|f l1 IH]; simpl; [done|]. rewrite IH. lia.
Qed.

Lemma accounted_refl st :
  len (df_rows st) < SAVE_EVERY -> accounted st st [].
Proof.
  intros Hst. unfold accounted, written_between. simpl.
  repeat split; try done. lia.
Qed.

Lemma accounted_trans st1 st2 st3 new1 new2 :
  accounted st1 st2 new1 -> accounted st2 st3 new2 ->
  accounted st1 st3 (new2 ++ new1).
Proof.
  unfold accounted, written_between.
  intros (_ & A2 & A3 & A4) (B1 & B2 & B3 & B4).
  split; [done|]. split; [by rewrite B2, A2, app_assoc|].
  split; [by apply Forall_app|]. rewrite rows_in_app. lia.
Qed.

Variable w : world.
Hypothesis saved : all_saved w.

(** Writing a batch of at most [SAVE_EVERY] rows that is not empty. *)
Lemma save_batch_accounted st :
  df_rows st <> [] -> len (df_rows st) <= SAVE_EVERY ->
  accounted st (save_batch w st) [(csv_file_counter st + 1, df_rows st)].
Proof.
  intros Hne Hlen. unfold accounted, written_between.
  destruct (save_batch_keeps w st) as (_ & -> & _).
  destruct (save_batch_cases w st)
    as [([Hfail|Hempty] & _)|(_ & _ & -> & _ & ->)].
  - specialize (saved (save_calls st)). lia.
  - done.
  - assert (0 < len (df_rows st)).
    { unfold len. destruct (df_rows st); [done|simpl; lia]. }
    unfold rows_in, well_sized, len in *. simpl.
    repeat split; try done; try lia.
    repeat constructor; simpl; lia.
Qed.

Lemma on_completed_accounted st c :
  len (df_rows st) < SAVE_EVERY ->
  exists new, accounted st (on_completed w st c).1 new.
Proof.
  intros Hst. unfold on_completed.
  destruct c.2 as [d|]; [|exists []; by apply accounted_refl].
  destruct (_has_python_files d); cbn [negb fst].
  2:{ exists []. unfold accounted, written_between. simpl.
      repeat split; try done. lia. }
  assert (Hrow : len (df_rows (record_row st c.1 d)) = len (df_rows st) + 1).
  { unfold len. simpl. rewrite length_app. simpl. lia. }
  destruct (SAVE_EVERY <=? len (df_rows (record_row st c.1 d))) eqn:Hfull.
  - apply Z.leb_le in Hfull.
    destruct (save_batch_accounted (record_row st c.1 d))
      as (B1 & B2 & B3 & B4).
    + simpl. by destruct (df_rows st).
    + lia.
    + eexists. unfold accounted, written_between in *.
      split; [exact B1|]. split; [exact B2|]. split; [exact B3|].
      simpl processed_with_python in B4. lia.
  - apply Z.leb_gt in Hfull. exists [].
    unfold accounted, written_between.
    split; [exact Hfull|]. split; [done|]. split; [constructor|].
    rewrite Hrow. simpl. lia.
Qed.

Lemma process_completed_accounted l : forall st,
  len (df_rows st) < SAVE_EVERY ->
  exists new, accounted st (process_completed w st l) new.
Proof.
  induction l as [|c l IH]; intros st Hst;
    [exists []; by apply accounted_refl|].
  simpl. destruct (on_completed_accounted st c Hst) as (new1 & H1).
  destruct (on_completed w st c) as [st' leave]. simpl in H1.
  destruct leave; [by exists new1|].
  destruct (IH st') as (new2 & H2); [apply H1|].
  exists (new2 ++ new1). by eapply accounted_trans.
Qed.

Lemma save_remaining_accounted st :
  len (df_rows st) < SAVE_EVERY ->
  exists new, accounted st (save_remaining w st) new.
Proof.
  intros Hst. unfold save_remaining.
  destruct (df_rows st) as [|d rows] eqn:Hrows;
    [exists []; apply accounted_refl; by rewrite Hrows|].
  destruct (_ <? _);
    [|exists []; apply accounted_refl; by rewrite Hrows].
  eexists. apply save_batch_accounted; rewrite Hrows; [done|lia].
Qed.

Lemma unchanged_accounted st st' :
  df_rows st' = df_rows st -> csv_files st' = csv_files st ->
  processed_with_python st' = processed_with_python st ->
  len (df_rows st) < SAVE_EVERY ->
  accounted st st' [].
Proof.
  intros H1 H2 H3 Hst. unfold accounted, written_between.
  rewrite H1, H2, H3. simpl. repeat split; try done. lia.
Qed.

Lemma update_lowest_accounted st :
  len (df_rows st) < SAVE_EVERY -> accounted st (update_lowest st) [].
Proof.
  intros Hst. apply unchanged_accounted; try done;
    unfold update_lowest; destruct (df_rows st) eqn:Hrows; try done;
    destruct (py_min_Z _); try done;
    destruct (lowest_pr_number st); try done;
    try destruct (_ <? _); try done; simpl; by rewrite ?Hrows.
Qed.

Lemma iteration_accounted i st :
  len (df_rows st) < SAVE_EVERY ->
  exists new, accounted st (state_of (iteration w i st)) new.
Proof.
  intros Hst. unfold iteration, loop_body.
  destruct (_ <? _); [|exists []; by apply accounted_refl].
  destruct (pr_objs_of w i st); [exists []; by apply accounted_refl|].
  destruct (new_pr_objs_of w i st) as [|n0 ns].
  { exists []. by apply unchanged_accounted. }
  assert (H0 : accounted st (submit st (n0 :: ns)) [])
    by (by apply unchanged_accounted).
  destruct (process_completed_accounted (as_completed w i (n0 :: ns))
              (submit st (n0 :: ns))) as (new1 & H1); [apply H0|].
  destruct (save_remaining_accounted _ (proj1 H1)) as (new2 & H2).
  pose proof (update_lowest_accounted _ (proj1 H2)) as H3.
  exists ([] ++ new2 ++ new1 ++ []).
  assert (accounted st (update_lowest (save_remaining w
            (process_completed w (submit st (n0 :: ns))
               (as_completed w i (n0 :: ns))))) ([] ++ new2 ++ new1 ++ [])).
  { eapply accounted_trans; [|exact H3].
    eapply accounted_trans; [|exact H2].
    eapply accounted_trans; [exact H0|exact H1]. }
  by destruct (_ <=? _).
Qed.

Lemma run_accounted fuel : forall i st,
  len (df_rows st) < SAVE_EVERY ->
  exists new, accounted st (state_of (run w fuel i st)) new.
Proof.
  induction fuel as [|fuel IH]; intros i st Hst;
    [exists []; by apply accounted_refl|].
  simpl. destruct (iteration_accounted i st Hst) as (new1 & H1).
  destruct (iteration w i st) as [st'|st']; [|by exists new1].
  destruct (IH (S i) st' (proj1 H1)) as (new2 & H2).
  exists (new2 ++ new1). by eapply accounted_trans.
Qed.

End RunAccountTheorems.

Section RunAccountClaims.

Import GithubUtils Main Spec RunProperties RunAccounts.

(** X18. While every write succeeds, every batch file a run writes
    holds at least one row and at most [SAVE_EVERY] rows, and fewer than
    [SAVE_EVERY] rows are pending when it stops, however the workers
    complete. *)
Theorem X18_batches_are_well_sized
    (w : world) (fuel i : nat) (st : state) :
  all_saved w ->
  len (df_rows st) < SAVE_EVERY ->
  let st' := state_of (run w fuel i st) in
  len (df_rows st') < SAVE_EVERY
  /\ exists new, csv_files st' = new ++ csv_files st
                 /\ Forall well_sized new.
Proof.
  intros Hsaved Hst st'.
  destruct (run_accounted w Hsaved fuel i st Hst) as (new & H1 & H2 & H3 & _).
  split; [exact H1|]. by exists new.
Qed.

(** X19. While every write succeeds, the counter of the target keeps
    account of the records: what it gained over a run is the number of
    rows in the batch files written during the run plus the change in
    the number of pending rows. *)
Theorem X19_counter_accounts_for_rows
    (w : world) (fuel i : nat) (st : state) :
  all_saved w ->
  len (df_rows st) < SAVE_EVERY ->
  let st' := state_of (run w fuel i st) in
  exists new,
    csv_files st' = new ++ csv_files st
    /\ processed_with_python st' - processed_with_python st
       = rows_in new + len (df_rows st') - len (df_rows st).
Proof.
  intros Hsaved Hst st'.
  destruct (run_accounted w Hsaved fuel i st Hst) as (new & _ & H2 & _ & H4).
  exists new. split; [exact H2|]. fold st' in H4. lia.
Qed.

Lemma world_python_pr_saved : all_saved world_python_pr.
Proof. intros k. simpl. lia. Qed.

Lemma X18_witness :
  all_saved world_python_pr
  /\ len (df_rows (initial_state None)) < SAVE_EVERY
  /\ len (df_rows (state_of (run world_python_pr 3 0 (initial_state None))))
     < SAVE_EVERY.
Proof.
  split; [exact world_python_pr_saved|].
  split; [vm_compute; reflexivity|].
  apply (X18_batches_are_well_sized world_python_pr 3 0 (initial_state None));
    [exact world_python_pr_saved|vm_compute; reflexivity].
Defined.

Lemma X19_witness :
  all_saved world_python_pr
  /\ len (df_rows (initial_state None)) < SAVE_EVERY
  /\ exists new,
       csv_files (state_of (run world_python_pr 3 0 (initial_state None)))
       = new ++ csv_files (initial_state None)
       /\ processed_with_python
            (state_of (run world_python_pr 3 0 (initial_state None)))
          - processed_with_python (initial_state None)
          = rows_in new
            + len (df_rows
                     (state_of (run world_python_pr 3 0 (initial_state None))))
            - len (df_rows (initial_state None)).
Proof.
  split; [exact world_python_pr_saved|].
  split; [vm_compute; reflexivity|].
  apply (X19_counter_accounts_for_rows world_python_pr 3 0
           (initial_state None));
    [exact world_python_pr_saved|vm_compute; reflexivity].
Defined.

End RunAccountClaims.

Section RestartTheorems.

Import GithubUtils Main Spec RunProperties Restart Listing.

(** X20. After a batch write that saved rows and wrote the checkpoint,
    a new process that loads the checkpoint starts with the processed
    set, the counter of the target, the batch counter and the cursor the
    running process has, and with no pending rows, as the running
    process. *)
Theorem X20_checkpoint_restores_progress (w : world) (st : state) :
  0 < rows_saved_of (write_csv w (save_calls st)) ->
  df_rows st <> [] ->
  write_metadata w (save_calls st) = Replaced ->
  same_progress (save_batch w st)
                (initial_state (metadata_file (save_batch w st))).
Proof.
  intros Hrows Hne Hmeta. unfold save_batch, _save_batch_to_separate_csv.
  destruct (df_rows st) as [|d rows] eqn:Hd; [done|].
  destruct (write_csv w (save_calls st)) as [|n]; simpl in Hrows; [lia|].
  apply Z.ltb_lt in Hrows. rewrite Hrows, Hmeta.
  unfold same_progress, initial_state. simpl.
  repeat split. apply list_to_set_elements_L.
Qed.

Lemma X20_witness :
  0 < rows_saved_of (write_csv world_resume (save_calls state_with_row_7))
  /\ df_rows state_with_row_7 <> []
  /\ write_metadata world_resume (save_calls state_with_row_7) = Replaced
  /\ same_progress (save_batch world_resume state_with_row_7)
       (initial_state
          (metadata_file (save_batch world_resume state_with_row_7))).
Proof.
  assert (H1 : 0 < rows_saved_of
                     (write_csv world_resume (save_calls state_with_row_7)))
    by (simpl; lia).
  assert (H2 : df_rows state_with_row_7 <> []) by discriminate.
  split; [exact H1|]. split; [exact H2|]. split; [reflexivity|].
  exact (X20_checkpoint_restores_progress world_resume state_with_row_7
           H1 H2 eq_refl).
Defined.

Lemma until_empty_page_elem {A} (pages : list (list A)) x :
  x ∈ concat (until_empty_page pages) -> x ∈ concat pages.
Proof.
  induction pages as [|page pages IH]; [done|].
  destruct page as [|y page]; [intros H; by apply elem_of_nil in H|].
  change (until_empty_page ((y :: page) :: pages))
    with ((y :: page) :: until_empty_page pages).
  rewrite !concat_cons, !elem_of_app. intros [?|?]; [by left|right; auto].
Qed.

Lemma listed_from_pages w i st pr :
  pr ∈ pr_objs_of w i st -> pr ∈ concat (get_pages w i).
Proof.
  unfold pr_objs_of. intros Hpr.
  rewrite fetch_descending_take in Hpr.
  apply elem_of_take in Hpr as (j & Hj & _).
  apply list_elem_of_lookup_2, list_elem_of_filter in Hj as [_ Hj].
  by apply until_empty_page_elem.
Qed.

Lemma set_lowest_same st : set_lowest st (lowest_pr_number st) = st.
Proof. by destruct st. Qed.

Lemma update_lowest_moves_cursor_only st :
  exists c, update_lowest st = set_lowest st c.
Proof.
  unfold update_lowest.
  destruct (df_rows st);
    [|exists (lowest_pr_number st); by rewrite set_lowest_same].
  destruct (py_min_Z _) as [m|];
    [|exists (lowest_pr_number st); by rewrite set_lowest_same].
  destruct (lowest_pr_number st) as [c|] eqn:Hc; [|by exists (Some m)].
  destruct (m <? c); [by exists (Some m)|].
  exists (Some c). by rewrite <- Hc, set_lowest_same.
Qed.

(** X21. When everything the service lists is in the processed set
    already, a run of any length writes no batch file and no checkpoint,
    hands nothing to the workers and counts nothing: it leaves the state
    as it was, the cursor apart. *)
Theorem X21_nothing_new_nothing_done
    (w : world) (st : state) (fuel i : nat) :
  nothing_new w st ->
  exists cursor, state_of (run w fuel i st) = set_lowest st cursor.
Proof.
  revert i st. induction fuel as [|fuel IH]; intros i st Hnew.
  { exists (lowest_pr_number st). simpl. by rewrite set_lowest_same. }
  simpl. unfold iteration, loop_body.
  destruct (_ <? _);
    [|exists (lowest_pr_number st); simpl; by rewrite set_lowest_same].
  assert (Hempty : new_pr_objs_of w i st = []).
  { destruct (new_pr_objs_of w i st) as [|n0 ns] eqn:Hn; [done|].
    assert (Hin : n0 ∈ new_pr_objs_of w i st) by (rewrite Hn; left).
    unfold new_pr_objs_of in Hin.
    apply list_elem_of_filter in Hin as [Hnot Hin].
    exfalso. by apply Hnot, (Hnew i), listed_from_pages with st. }
  rewrite Hempty.
  destruct (pr_objs_of w i st) as [|pr0 prs];
    [exists (lowest_pr_number st); simpl; by rewrite set_lowest_same|].
  match goal with
  | |- context [run w fuel (S i) ?s] =>
      destruct (IH (S i) s) as (cursor & Hrun); [exact Hnew|]
  end.
  exists cursor. exact Hrun.
Qed.

Lemma world_all_processed_nothing_new :
  nothing_new world_all_processed (initial_state (Some checkpoint_3_5)).
Proof.
  intros i pr Hpr. simpl in Hpr.
  destruct i as [|i]; simpl in Hpr;
    apply list_elem_of_singleton in Hpr as ->; vm_compute; reflexivity.
Qed.

Lemma X21_witness :
  nothing_new world_all_processed (initial_state (Some checkpoint_3_5))
  /\ exists cursor,
       state_of (run world_all_processed 4 0
                   (initial_state (Some checkpoint_3_5)))
       = set_lowest (initial_state (Some checkpoint_3_5)) cursor.
Proof.
  split; [exact world_all_processed_nothing_new|].
  exact (X21_nothing_new_nothing_done world_all_processed
           (initial_state (Some checkpoint_3_5)) 4 0
           world_all_processed_nothing_new).
Defined.

(** X22. When a turn leaves the loop because the target is reached,
    nothing is written after the last completed worker: the rows still
    pending at that point are in no batch file and in no checkpoint when
    the loop is left. *)
Theorem X22_rows_pending_at_target_stay_unwritten
    (w : world) (i : nat) (st st' : state) :
  processed_with_python st < TARGET_PRS_WITH_PYTHON ->
  pr_objs_of w i st <> [] ->
  iteration w i st = Exit st' ->
  let st1 := process_completed w (submit st (new_pr_objs_of w i st))
               (as_completed w i (new_pr_objs_of w i st)) in
  TARGET_PRS_WITH_PYTHON <= processed_with_python st1
  /\ df_rows st' = df_rows st1
  /\ csv_files st' = csv_files st1
  /\ metadata_file st' = metadata_file st1
  /\ save_calls st' = save_calls st1.
Proof.
  intros Hlt Hprs Hexit. cbv zeta. unfold iteration, loop_body in Hexit.
  apply Z.ltb_lt in Hlt as Hlt'. rewrite Hlt' in Hexit.
  destruct (pr_objs_of w i st) as [|pr0 prs]; [done|].
  destruct (new_pr_objs_of w i st) as [|n0 ns]; [done|].
  set (st1 := process_completed w _ _) in *.
  destruct (_ <=? _) eqn:Ht in Hexit; [|done].
  injection Hexit as <-. apply Z.leb_le in Ht.
  rewrite update_lowest_counter, save_remaining_counter in Ht.
  assert (Hs : save_remaining w st1 = st1).
  { unfold save_remaining. destruct (df_rows st1); [done|].
    destruct (processed_with_python st1 <? _) eqn:Hc;
      [apply Z.ltb_lt in Hc; lia|done]. }
  rewrite Hs. split; [exact Ht|].
  by destruct (update_lowest_moves_cursor_only st1) as [c ->].
Qed.

Lemma X22_witness :
  let w := RunAccounts.world_python_pr in
  let st := initial_state (Some checkpoint_one_short) in
  let st' := state_of (iteration w 0 st) in
  processed_with_python st < TARGET_PRS_WITH_PYTHON
  /\ pr_objs_of w 0 st <> []
  /\ iteration w 0 st = Exit st'
  /\ df_rows st' <> []
  /\ csv_files st'
     = csv_files (process_completed w (submit st (new_pr_objs_of w 0 st))
                    (as_completed w 0 (new_pr_objs_of w 0 st)))
  /\ csv_files st' = []
  /\ metadata_file st' = Some checkpoint_one_short.
Proof.
  intros w st st'.
  assert (H1 : processed_with_python st < TARGET_PRS_WITH_PYTHON)
    by (vm_compute; reflexivity).
  assert (H2 : pr_objs_of w 0 st <> []) by (vm_compute; discriminate).
  assert (H3 : iteration w 0 st = Exit st') by (vm_compute; reflexivity).
  split; [exact H1|]. split; [exact H2|]. split; [exact H3|].
  split; [vm_compute; discriminate|].
  split; [|split; vm_compute; reflexivity].
  exact (proj1 (proj2 (proj2
           (X22_rows_pending_at_target_stay_unwritten w 0 st st' H1 H2 H3)))).
Defined.

(** X23. After a turn whose listing held processed pull requests only,
    with smallest number [m], the cursor is [m - 1]: the next listing
    passes over every number from [m - 1] upwards, so the pull request
    numbered [m - 1] is never listed again, processed or not. *)
Theorem X23_cursor_after_stale_listing_skips_one
    (w : world) (i : nat) (st : state) :
  processed_with_python st < TARGET_PRS_WITH_PYTHON ->
  pr_objs_of w i st <> [] ->
  new_pr_objs_of w i st = [] ->
  exists m st',
    py_min_Z (map pr_number (pr_objs_of w i st)) = Some m
    /\ iteration w i st = Again st'
    /\ lowest_pr_number st' = Some (m - 1)
    /\ (forall j pr, pr ∈ pr_objs_of w j st' -> pr_number pr < m - 1).
Proof.
  intros Hlt Hprs Hnew.
  assert (Hagain : iteration w i st
    = Again (set_lowest st
               ((fun m => m - 1)
                  <$> py_min_Z (map pr_number (pr_objs_of w i st))))).
  { unfold iteration, loop_body. apply Z.ltb_lt in Hlt.
    rewrite Hlt, Hnew. by destruct (pr_objs_of w i st). }
  destruct (py_min_Z (map pr_number (pr_objs_of w i st))) as [m|] eqn:Hm.
  - exists m, (set_lowest st (Some (m - 1))).
    split; [done|]. split; [exact Hagain|]. split; [done|].
    intros j pr Hpr. unfold pr_objs_of in Hpr. simpl in Hpr.
    by apply fetch_below_cursor in Hpr as [? _].
  - destruct (pr_objs_of w i st); [done|discriminate Hm].
Qed.

End RestartTheorems.

Lemma X23_witness :
  Main.processed_with_python
    (Main.initial_state (Some Spec.checkpoint_3_5))
  < Main.TARGET_PRS_WITH_PYTHON
  /\ Main.pr_objs_of Spec.world_all_processed 0
       (Main.initial_state (Some Spec.checkpoint_3_5)) <> []
  /\ Main.new_pr_objs_of Spec.world_all_processed 0
       (Main.initial_state (Some Spec.checkpoint_3_5)) = []
  /\ exists m st',
       Main.py_min_Z
         (map Main.pr_number
            (Main.pr_objs_of Spec.world_all_processed 0
               (Main.initial_state (Some Spec.checkpoint_3_5)))) = Some m
       /\ Main.iteration Spec.world_all_processed 0
            (Main.initial_state (Some Spec.checkpoint_3_5)) = Main.Again st'
       /\ Main.lowest_pr_number st' = Some (m - 1)
       /\ (forall j pr, pr ∈ Main.pr_objs_of Spec.world_all_processed j st' ->
                        Main.pr_number pr < m - 1).
Proof.
  assert (H1 : Main.processed_with_python
                 (Main.initial_state (Some Spec.checkpoint_3_5))
               < Main.TARGET_PRS_WITH_PYTHON) by (vm_compute; reflexivity).
  assert (H2 : Main.pr_objs_of Spec.world_all_processed 0
                 (Main.initial_state (Some Spec.checkpoint_3_5)) <> [])
    by (vm_compute; discriminate).
  assert (H3 : Main.new_pr_objs_of Spec.world_all_processed 0
                 (Main.initial_state (Some Spec.checkpoint_3_5)) = [])
    by (vm_compute; reflexivity).
  split; [exact H1|]. split; [exact H2|]. split; [exact H3|].
  exact (X23_cursor_after_stale_listing_skips_one
           Spec.world_all_processed 0
           (Main.initial_state (Some Spec.checkpoint_3_5)) H1 H2 H3).
Defined.

(** ** Letter case *)

Section LetterCase.

Import FeatureExtraction MoreProperties.

Lemma lower_char_idem c : Text.lower_char (Text.lower_char c) = Text.lower_char c.
Proof. destruct c as [[] [] [] [] [] [] [] []]; reflexivity. Qed.

Lemma lower_upper_char c : Text.lower_char (upper_char c) = Text.lower_char c.
Proof. destruct c as [[] [] [] [] [] [] [] []]; reflexivity. Qed.

Lemma contains_keywords_same_lower patterns (t t' : string) :
  Text.lower (list_ascii_of_string t) = Text.lower (list_ascii_of_string t') ->
  contains_keywords_regex (Some t) patterns
  = contains_keywords_regex (Some t') patterns.
Proof.
  intros Hl. unfold contains_keywords_regex.
  destruct t as [|c t], t' as [|c' t']; try done.
  by rewrite Hl.
Qed.

Lemma lower_of_lower t :
  Text.lower (list_ascii_of_string (lower t))
  = Text.lower (list_ascii_of_string t).
Proof.
  unfold lower. rewrite list_ascii_of_string_of_list_ascii.
  unfold Text.lower. rewrite map_map. apply map_ext. apply lower_char_idem.
Qed.

Lemma lower_of_upper t :
  Text.lower (list_ascii_of_string (upper t))
  = Text.lower (list_ascii_of_string t).
Proof.
  unfold upper. rewrite list_ascii_of_string_of_list_ascii.
  unfold Text.lower. rewrite map_map. apply map_ext. apply lower_upper_char.
Qed.

(** X24. The labels do not depend on letter case: a title, the title in
    lower case and the title in upper case get the same three labels. *)
Theorem X24_labels_ignore_letter_case (t : string) :
  labels (Some (lower t)) = labels (Some t)
  /\ labels (Some (upper t)) = labels (Some t).
Proof.
  unfold labels, is_bugfix, is_refactor, is_feature. split.
  - by rewrite !(contains_keywords_same_lower _ (lower t) t)
      by apply lower_of_lower.
  - by rewrite !(contains_keywords_same_lower _ (upper t) t)
      by apply lower_of_upper.
Qed.

End LetterCase.

(** ** The order of the files *)

Section FileOrder.

Import FeatureExtraction Spec MoreProperties.









End FileOrder.

(** ** The rows of a run *)

Section RowsOfARun.

Import GithubUtils Main Spec MoreProperties.

Variable w : world.
Hypothesis pool : honest_pool w.
Variable old : list (Z * list pr_dict).

Lemma rows_weaken st st' :
  existing_pr_numbers st ⊆ existing_pr_numbers st' ->
  df_rows st' = df_rows st -> csv_files st' = csv_files st ->
  rows_are_python_and_processed old st ->
  rows_are_python_and_processed old st'.
Proof.
  intros Hsub Hrows Hfiles (Hpending & new & Hnew & Hwritten).
  unfold rows_are_python_and_processed. rewrite Hrows, Hfiles. split.
  - eapply Forall_impl; [exact Hpending|]. intros d [? ?]. split; auto.
  - exists new. split; [done|].
    eapply Forall_impl; [exact Hwritten|]. intros f Hf.
    eapply Forall_impl; [exact Hf|]. intros d [? ?]. split; auto.
Qed.

Lemma save_batch_rows st :
  rows_are_python_and_processed old st ->
  rows_are_python_and_processed old (save_batch w st).
Proof.
  intros (Hpending & new & Hnew & Hwritten).
  unfold rows_are_python_and_processed.
  destruct (save_batch_keeps w st) as (-> & _).
  destruct (save_batch_cases w st)
    as [(_ & -> & _ & _ & [-> | ->])|(_ & _ & -> & _ & ->)].
  - split; [done|]. by exists new.
  - split; [done|]. exists ((csv_file_counter st + 1, df_rows st) :: new).
    rewrite Hnew. split; [done|]. by constructor.
  - split; [constructor|].
    exists ((csv_file_counter st + 1, df_rows st) :: new).
    rewrite Hnew. split; [done|]. by constructor.
Qed.

Lemma on_completed_rows st c :
  (forall d, c.2 = Some d -> number d = pr_number c.1) ->
  rows_are_python_and_processed old st ->
  rows_are_python_and_processed old (on_completed w st c).1.
Proof.
  intros Hc Hst. unfold on_completed. destruct c.2 as [d|] eqn:Hd; [|done].
  specialize (Hc d eq_refl).
  destruct (_has_python_files d) eqn:Hpy; cbn [negb fst].
  - assert (Hrow : rows_are_python_and_processed old (record_row st c.1 d)).
    { destruct Hst as (Hpending & new & Hnew & Hwritten).
      unfold rows_are_python_and_processed. simpl. split.
      - apply Forall_app. split.
        + eapply Forall_impl; [exact Hpending|]. intros d' [? ?].
          split; [done|]. apply elem_of_union. by right.
        + repeat constructor; [done|]. rewrite Hc.
          apply elem_of_union. left. by apply elem_of_singleton.
      - exists new. split; [done|].
        eapply Forall_impl; [exact Hwritten|]. intros f Hf.
        eapply Forall_impl; [exact Hf|]. intros d' [? ?].
        split; [done|]. apply elem_of_union. by right. }
    destruct (SAVE_EVERY <=? _); [by apply save_batch_rows|done].
  - eapply rows_weaken; [| | |exact Hst]; try done.
    simpl. apply union_subseteq_r.
Qed.

Lemma process_completed_rows l : forall st,
  Forall (fun c => forall d, c.2 = Some d -> number d = pr_number c.1) l ->
  rows_are_python_and_processed old st ->
  rows_are_python_and_processed old (process_completed w st l).
Proof.
  induction l as [|c l IH]; intros st Hl Hst; [done|].
  apply Forall_cons in Hl as [Hc Hl]. simpl.
  pose proof (on_completed_rows st c Hc Hst) as Hst'.
  destruct (on_completed w st c) as [st' leave]. simpl in Hst'.
  destruct leave; [done|by apply IH].
Qed.

Lemma iteration_rows i st :
  rows_are_python_and_processed old st ->
  rows_are_python_and_processed old (state_of (iteration w i st)).
Proof.
  intros Hst. unfold iteration, loop_body.
  destruct (_ <? _); [|done].
  destruct (pr_objs_of w i st); [done|].
  destruct (new_pr_objs_of w i st) as [|n0 ns].
  { by eapply rows_weaken; [| | |exact Hst]. }
  match goal with
  | |- context [process_completed w ?s ?l] =>
      assert (H1 : rows_are_python_and_processed old
                     (process_completed w s l))
  end.
  { apply process_completed_rows.
    - apply Forall_forall. intros [pr r] Hin d Hr. simpl in Hr. subst r.
      by apply pool in Hin as [_ ?].
    - by eapply rows_weaken; [| | |exact Hst]. }
  assert (H2 : rows_are_python_and_processed old
                 (save_remaining w
                    (process_completed w (submit st (n0 :: ns))
                       (as_completed w i (n0 :: ns))))).
  { unfold save_remaining. destruct (df_rows _); [done|].
    destruct (_ <? _); [by apply save_batch_rows|done]. }
  assert (H3 : rows_are_python_and_processed old
                 (update_lowest (save_remaining w
                    (process_completed w (submit st (n0 :: ns))
                       (as_completed w i (n0 :: ns)))))).
  { destruct (update_lowest_moves_cursor_only
                (save_remaining w
                   (process_completed w (submit st (n0 :: ns))
                      (as_completed w i (n0 :: ns))))) as [c ->].
    by eapply rows_weaken; [| | |exact H2]. }
  by destruct (_ <=? _).
Qed.

Lemma run_rows fuel : forall i st,
  rows_are_python_and_processed old st ->
  rows_are_python_and_processed old (state_of (run w fuel i st)).
Proof.
  induction fuel as [|fuel IH]; intros i st Hst; [done|].
  simpl. pose proof (iteration_rows i st Hst) as Hit.
  destruct (iteration w i st) as [st'|st']; [by apply IH|done].
Qed.

End RowsOfARun.

Section RowsClaim.

Import GithubUtils Main Spec MoreProperties.

(** X26. In a run that starts without pending rows, every row that is
    pending or in a batch file written by the run belongs to a pull
    request with a [.py] file, and its number is in the processed set: a
    pull request without Python files never reaches a batch, and no row
    is written for a number the run has not marked.  The worker pool is
    taken to return the record of the pull request it was asked for. *)
Theorem X26_rows_are_python_and_processed
    (w : world) (st : state) (fuel i : nat) :
  honest_pool w ->
  df_rows st = [] ->
  rows_are_python_and_processed (csv_files st)
    (state_of (run w fuel i st)).
Proof.
  intros Hpool Hrows. apply run_rows; [exact Hpool|].
  unfold rows_are_python_and_processed. rewrite Hrows.
  split; [constructor|]. exists []. by split.
Qed.

Lemma X26_witness :
  honest_pool world_resume
  /\ df_rows (initial_state (Some checkpoint_resume)) = []
  /\ rows_are_python_and_processed
       (csv_files (initial_state (Some checkpoint_resume)))
       (state_of (run world_resume 5 0
                    (initial_state (Some checkpoint_resume)))).
Proof.
  split; [apply orderly_pool_honest|]. split; [reflexivity|].
  apply (X26_rows_are_python_and_processed world_resume
           (initial_state (Some checkpoint_resume)) 5 0);
    [apply orderly_pool_honest|reflexivity].
Defined.

End RowsClaim.
